(** * Tundra Connect: response handling, error wrappers and request building

    A shallow embedding of the three API clients of the repository
    (Surepass, OpenExchange, Aptos) and of the error classes they throw,
    together with the properties of the response-validation and
    error-mapping contract.

    Conventions of the embedding:
    - a JavaScript string is a [string] of code units below 256; what a
      method of [String.prototype] does to them is defined where it is
      decided by the code units alone ([slice], [padStart], [trim], ...),
      and is a parameter where it is decided by the Unicode tables of the
      engine ([toUpperCase]);
    - a JavaScript object used as a dictionary (query, error context) is a
      [gmap string _];
    - a parsed response body is a [JSON] value;
    - a function that may [throw] returns a [Completion]: either the value
      it returns or the value it throws. *)

From Stdlib Require Import ZArith QArith Ascii String List Bool Lia.
From stdpp Require Import base option list strings gmap.

Set Warnings "-register-all".

Local Open Scope string_scope.
Local Open Scope Z_scope.

(** ** JavaScript string primitives *)

Module JsString.

(** [s.slice(n)] for a non-negative [n]. *)
Fixpoint slice (n : nat) (s : string) : string :=
  match n, s with
  | O, _ => s
  | S _, EmptyString => EmptyString
  | S n', String _ s' => slice n' s'
  end.

(** [s.startsWith(p)]. *)
Fixpoint startsWith (p s : string) : bool :=
  match p, s with
  | EmptyString, _ => true
  | String _ _, EmptyString => false
  | String a p', String b s' => Ascii.eqb a b && startsWith p' s'
  end.

(** [c.repeat(n)] for a one-character string [c]. *)
Fixpoint repeat (c : ascii) (n : nat) : string :=
  match n with
  | O => EmptyString
  | S n' => String c (repeat c n')
  end.

(** [s.padStart(n, c)] for a one-character filler [c]. *)
Definition padStart (n : nat) (c : ascii) (s : string) : string :=
  repeat c (n - String.length s) +:+ s.

Fixpoint forallb (p : ascii -> bool) (s : string) : bool :=
  match s with
  | EmptyString => true
  | String a s' => p a && forallb p s'
  end.

Definition between (lo hi a : ascii) : bool :=
  (nat_of_ascii lo <=? nat_of_ascii a)%nat && (nat_of_ascii a <=? nat_of_ascii hi)%nat.

(** The methods of [String.prototype] whose result is decided by the
    Unicode tables of the engine.  [s.toUpperCase()] is one: it folds
    letters outside ASCII and can change the length of the string (the
    upper case of U+00DF is [SS]), so it is a parameter of every definition
    that calls it, and what is proved of such a definition holds whatever
    the engine does. *)
Class Prototype := { toUpperCase : string -> string }.

(** One ASCII letter to upper case; every other code unit is kept. *)
Definition upper_ascii (a : ascii) : ascii :=
  if between "a" "z" a then ascii_of_nat (nat_of_ascii a - 32) else a.

(** The letters [a] to [z] of a string folded to upper case, one code unit
    at a time. *)
Fixpoint asciiUpperCase (s : string) : string :=
  match s with
  | EmptyString => EmptyString
  | String a s' => String (upper_ascii a) (asciiUpperCase s')
  end.

(** Every code unit of the string is below 128. *)
Definition is_ascii (s : string) : bool :=
  forallb (fun a => (nat_of_ascii a <? 128)%nat) s.

(** What is known of [toUpperCase] without the tables: on a string of
    ASCII code units it folds the letters [a] to [z] and nothing else. *)
Definition folds_ascii `{Prototype} : Prop :=
  forall s, is_ascii s = true -> toUpperCase s = asciiUpperCase s.

(** The white space and line terminators [trim] removes, among the code
    units below 256: TAB, LF, VT, FF, CR, SPACE and NO-BREAK SPACE. *)
Definition is_space (a : ascii) : bool :=
  match nat_of_ascii a with
  | 9%nat | 10%nat | 11%nat | 12%nat | 13%nat | 32%nat | 160%nat => true
  | _ => false
  end.

Fixpoint trimStart (s : string) : string :=
  match s with
  | EmptyString => EmptyString
  | String a s' => if is_space a then trimStart s' else s
  end.

(** [trimEnd] keeps a character when it is not a space or when something
    other than spaces follows it. *)
Fixpoint trimEnd (s : string) : string :=
  match s with
  | EmptyString => EmptyString
  | String a s' =>
      match trimEnd s' with
      | EmptyString => if is_space a then EmptyString else String a EmptyString
      | t => String a t
      end
  end.

(** [s.trim()]. *)
Definition trim (s : string) : string := trimEnd (trimStart s).

(** [xs.join(sep)]. *)
Fixpoint join (sep : string) (xs : list string) : string :=
  match xs with
  | [] => EmptyString
  | [x] => x
  | x :: rest => x +:+ sep +:+ join sep rest
  end.

(** A string is truthy when it is not empty. *)
Definition truthy (s : string) : bool :=
  match s with EmptyString => false | _ => true end.

End JsString.

(** ** Aptos: address validation and normalisation *)

Module Aptos.

Definition is_hex_digit (a : ascii) : bool :=
  JsString.between "0" "9" a || JsString.between "a" "f" a
  || JsString.between "A" "F" a.

(** [/^[0-9a-fA-F]+$/.test(s)]: one or more characters, all of them
    hexadecimal digits. *)
Definition hexRegex_test (s : string) : bool :=
  match s with
  | EmptyString => false
  | String _ _ => JsString.forallb is_hex_digit s
  end.

Definition isValidAddress (address : string) : bool :=
  if negb (JsString.startsWith "0x" address) then false
  else
    let addressWithoutPrefix := JsString.slice 2 address in
    if negb (hexRegex_test addressWithoutPrefix) then false
    else if (64 <? String.length addressWithoutPrefix)%nat then false
    else true.

(** [null] is [None]. *)
Definition normalizeAddress (address : string) : option string :=
  if negb (isValidAddress address) then None
  else
    let addressWithoutPrefix := JsString.slice 2 address in
    let normalizedAddressWithoutPrefix :=
      JsString.padStart 64 "0" addressWithoutPrefix in
    Some ("0x" +:+ normalizedAddressWithoutPrefix).

End Aptos.

(** ** Parsed response bodies *)

(** A JavaScript value as it occurs in a parsed body or in an error context.
    A number is a rational: the handlers only test numbers for being an
    integer, for equality with a status code and for order. *)
Inductive JSON : Type :=
| JUndefined
| JNull
| JBool (b : bool)
| JNum (q : Q)
| JStr (s : string)
| JArr (xs : list JSON)
| JObj (fields : list (string * JSON)).

Module Js.

(** Own property [k] of an object literal given as its key/value list;
    [undefined] when absent. *)
Fixpoint field (fields : list (string * JSON)) (k : string) : JSON :=
  match fields with
  | [] => JUndefined
  | (k', v) :: rest => if String.eqb k' k then v else field rest k
  end.

(** [v.k] on a value that is known not to be [null] or [undefined]
    (schema keys are never properties of a primitive or of an array). *)
Definition prop (v : JSON) (k : string) : JSON :=
  match v with
  | JObj fields => field fields k
  | _ => JUndefined
  end.

(** [n === k] for a numeric literal [k]. *)
Definition num_is (v : JSON) (k : Z) : bool :=
  match v with
  | JNum q => Qeq_bool q (inject_Z k)
  | _ => false
  end.

(** [v === s] for a string literal [s]. *)
Definition str_is (v : JSON) (s : string) : bool :=
  match v with
  | JStr t => String.eqb t s
  | _ => false
  end.

Definition is_integer (q : Q) : bool := Pos.eqb (Qden (Qred q)) 1.

End Js.

(** ** Guardian schemas

    The schema library is an external dependency.  The guards below are the
    ones the schemas of this repository are declared with; their behaviour
    follows the schema tests of the repository: a guard accepts a value of
    its type, a required field that is missing or of the wrong type fails
    the whole object, [optional] lets an absent ([undefined] or [null])
    value through, [in]/[equals] compare with the listed values, and
    validation returns either an error or the validated value. *)

Module Guardian.

Record GuardianError : Type := mkGuardianError {
  ge_message : string;
  ge_causes : list string
}.

Definition listCauses (e : GuardianError) : JSON :=
  JArr (map JStr (ge_causes e)).

Definition toJSON (e : GuardianError) : JSON :=
  JObj [("message", JStr (ge_message e)); ("causes", listCauses e)].

Inductive StringRule :=
| minLength (n : nat)
| maxLength (n : nat)
| str_in (allowed : list string)
| upperCase.

Inductive NumberRule :=
| integer
| num_in (allowed : list Z)
| min (bound : Z)
| positive.

Inductive Guard :=
| GString (rules : list StringRule)
| GNumber (rules : list NumberRule)
| GBoolean (equals : option bool)
| GObject
| GSchema (fields : list (string * Guard))
| GKeyValue (key value : Guard)
| GOptional (g : Guard).

Definition fail (msg : string) : GuardianError + JSON :=
  inl (mkGuardianError msg [msg]).

Section string_rules.
Context {JS : JsString.Prototype}.

Fixpoint string_rules (rules : list StringRule) (s : string)
  : GuardianError + JSON :=
  match rules with
  | [] => inr (JStr s)
  | minLength n :: rest =>
      if (String.length s <? n)%nat then fail "string is too short"
      else string_rules rest s
  | maxLength n :: rest =>
      if (n <? String.length s)%nat then fail "string is too long"
      else string_rules rest s
  | str_in allowed :: rest =>
      if existsb (String.eqb s) allowed then string_rules rest s
      else fail "string is not one of the allowed values"
  | upperCase :: rest => string_rules rest (JsString.toUpperCase s)
  end.

End string_rules.

Definition number_rule (r : NumberRule) (q : Q) : bool :=
  match r with
  | integer => Js.is_integer q
  | num_in allowed => existsb (fun k => Qeq_bool q (inject_Z k)) allowed
  | min bound => Qle_bool (inject_Z bound) q
  | positive => negb (Qle_bool q 0)
  end.

(** The error of an object: one cause per failing field. *)
Definition field_error (k : string) (e : GuardianError) : GuardianError :=
  mkGuardianError "object does not match the schema"
    (map (fun c => k +:+ ": " +:+ c) (ge_causes e)).

Definition join_errors (e1 e2 : GuardianError) : GuardianError :=
  mkGuardianError (ge_message e1) (ge_causes e1 ++ ge_causes e2).

(** Adds a validated field to the validated object; an absent optional
    field stays absent. *)
Definition add_field (k : string) (v : JSON) (acc : list (string * JSON))
  : list (string * JSON) :=
  match v with
  | JUndefined => acc
  | _ => (k, v) :: acc
  end.

Definition combine (k : string) (r : GuardianError + JSON)
    (rest : GuardianError + list (string * JSON))
  : GuardianError + list (string * JSON) :=
  match r, rest with
  | inr v, inr acc => inr (add_field k v acc)
  | inl e, inr _ => inl (field_error k e)
  | inr _, inl es => inl es
  | inl e, inl es => inl (join_errors (field_error k e) es)
  end.

Section schemas.
Context {JS : JsString.Prototype}.

(** Modelled from the spec: the schema library ([$guardian]) is not under
    src/.  Validation is structural and exhaustive: every declared field is
    checked, fields that are not declared are ignored, and a missing
    required field or a type mismatch fails the validation as a whole.
    [guard.validate(value)] returns [[error, undefined]], here [inl error],
    or [[null, value]], here [inr value]. *)
Fixpoint validate (g : Guard) (v : JSON) {struct g} : GuardianError + JSON :=
  match g with
  | GString rules =>
      match v with
      | JStr s => string_rules rules s
      | _ => fail "expected a string"
      end
  | GNumber rules =>
      match v with
      | JNum q =>
          if forallb (fun r => number_rule r q) rules then inr v
          else fail "number is out of range"
      | _ => fail "expected a number"
      end
  | GBoolean equals =>
      match v, equals with
      | JBool b, None => inr v
      | JBool b, Some e =>
          if Bool.eqb b e then inr v else fail "unexpected boolean value"
      | _, _ => fail "expected a boolean"
      end
  | GObject =>
      match v with
      | JObj _ => inr v
      | _ => fail "expected an object"
      end
  | GSchema fields =>
      match v with
      | JObj o =>
          let fix go (fs : list (string * Guard))
            : GuardianError + list (string * JSON) :=
            match fs with
            | [] => inr []
            | (k, gk) :: fs' => combine k (validate gk (Js.field o k)) (go fs')
            end in
          match go fields with
          | inr validated => inr (JObj validated)
          | inl e => inl e
          end
      | _ => fail "expected an object"
      end
  | GKeyValue key value =>
      match v with
      | JObj o =>
          let fix go (entries : list (string * JSON))
            : GuardianError + list (string * JSON) :=
            match entries with
            | [] => inr []
            | (k, x) :: rest =>
                match validate key (JStr k) with
                | inl e => combine k (inl e) (go rest)
                | inr _ => combine k (validate value x) (go rest)
                end
            end in
          match go o with
          | inr validated => inr (JObj validated)
          | inl e => inl e
          end
      | _ => fail "expected an object"
      end
  | GOptional g' =>
      match v with
      | JUndefined | JNull => inr JUndefined
      | _ => validate g' v
      end
  end.

End schemas.

(** What a handler receives as its [guard] argument: anything with a
    [validate] method. *)
Definition Validator : Type := JSON -> GuardianError + JSON.

End Guardian.

(** ** Thrown values and completions *)

Inductive Vendor := Surepass_vendor | OpenExchange_vendor.

(** What reading [table[key]] on an object literal of strings yields: an own
    entry, a member inherited from [Object.prototype], or [undefined]. *)
Inductive JsProp :=
| POwn (s : string)
| PInherited (name : string)
| PUndefined.

(** A thrown value.  [DomainError] is the error made by
    [new SurepassError(...)] or [new OpenExchangeError(...)], described by
    what the constructor hands to its base class: [code] is the value of the
    constructor's [code] variable when it reaches [super(...)], [message]
    the table entry it passes as the message, [context] the metadata object
    (an empty object when none is given) and [cause] the wrapped error.
    What the base class makes of that call is [BaseError], below. *)
Inductive Exception : Type :=
| DomainError (vendor : Vendor) (code : string) (message : JsProp)
    (context : gmap string JSON) (cause : option Exception)
| TypeError (message : string)
| JsError (message : string).

Inductive Completion (A : Type) : Type :=
| Return (a : A)
| Throw (e : Exception).
Arguments Return {A} a.
Arguments Throw {A} e.

Module Runtime.

Definition Object_prototype : list string :=
  [ "constructor"; "__defineGetter__"; "__defineSetter__"; "hasOwnProperty";
    "__lookupGetter__"; "__lookupSetter__"; "isPrototypeOf";
    "propertyIsEnumerable"; "toString"; "valueOf"; "__proto__";
    "toLocaleString" ].

Fixpoint own (table : list (string * string)) (key : string) : option string :=
  match table with
  | [] => None
  | (k, v) :: rest => if String.eqb k key then Some v else own rest key
  end.

(** [table[key]]: own entries first, then the prototype chain. *)
Definition get (table : list (string * string)) (key : string) : JsProp :=
  match own table key with
  | Some v => POwn v
  | None =>
      if existsb (String.eqb key) Object_prototype then PInherited key
      else PUndefined
  end.

Definition truthy (p : JsProp) : bool :=
  match p with
  | POwn s => JsString.truthy s
  | PInherited _ => true
  | PUndefined => false
  end.

(** Truthiness of a parsed value. *)
Definition truthy_value (v : JSON) : bool :=
  match v with
  | JUndefined | JNull => false
  | JBool b => b
  | JNum q => negb (Qeq_bool q 0)
  | JStr s => JsString.truthy s
  | JArr _ | JObj _ => true
  end.

(** [await body] followed by the rest of an [async] function. *)
Definition bind {A B} (c : Completion A) (k : A -> Completion B) : Completion B :=
  match c with
  | Return a => k a
  | Throw e => Throw e
  end.

(** [try { body } catch (cause) { handler }]. *)
Definition try_catch {A} (body : Completion A)
    (handler : Exception -> Completion A) : Completion A :=
  match body with
  | Return a => Return a
  | Throw cause => handler cause
  end.

End Runtime.

(** ** Surepass *)

Module Surepass.

Definition SurepassErrorCodes : list (string * string) :=
  [ ("UNHANDLED_ERROR", "An unhandled error occurred.");
    ("UNKNOWN_ERROR", "An unknown error occurred in Surepass.");
    ("RESPONSE_ERROR",
      "Got an invalid response/response status: ${status}. Check details.");
    ("INVALID_TOKEN",
      "The bearer token has either expired or is invalid or does not have access to this scope.");
    ("RATE_LIMIT_EXCEEDED",
      "You have exceeded the rate limit for this API. Please try again later.");
    ("SERVICE_UNAVAILABLE",
      "Surepass API's are down or facing issues. Please try again later.");
    ("VERIFICATION_FAILED",
      "There is an issue with the data provided. Please re-check");
    ("PARSE_ERROR",
      "The response from API did not match the expected format. See details for more information.");
    ("UNKNOWN_RESPONSE_ERROR",
      "Received an unknown response status code from Surepass API.") ].

Definition _messageTemplate : string := "[Surepass] ${timeStamp}: ${message}".

(** [new SurepassError(code, meta, cause)], up to the call
    [super(SurepassErrorCodes[code], meta, cause)]. *)
Definition SurepassError (code : string) (meta : option (gmap string JSON))
    (cause : option Exception) : Exception :=
  let '(code, meta) :=
    if negb (Runtime.truthy (Runtime.get SurepassErrorCodes code)) then
      let meta := default ∅ meta in
      let meta := <["originalCode" := JStr code]> meta in
      ("UNKNOWN_ERROR", Some meta)
    else (code, meta) in
  DomainError Surepass_vendor code (Runtime.get SurepassErrorCodes code)
    (default ∅ meta) cause.

(** [cause instanceof SurepassError]. *)
Definition instanceof_SurepassError (e : Exception) : bool :=
  match e with
  | DomainError Surepass_vendor _ _ _ _ => true
  | _ => false
  end.

Import Guardian.

Definition SurepassResponseSchema : Guard :=
  GSchema
    [ ("status_code", GOptional (GNumber [integer]));
      ("success", GOptional (GBoolean None));
      ("message", GOptional (GString []));
      ("message_code", GOptional (GString [upperCase]));
      ("data", GOptional GObject) ].

Definition SurepassNameMatchSchema : Guard :=
  GSchema
    [ ("client_id", GString []);
      ("name_1", GString []);
      ("name_2", GString []);
      ("match_score", GNumber []);
      ("match_status", GBoolean None) ].

(** The response of the transport. *)
Record RESTlerResponse := mkResponse { status : Z; body : JSON }.

Definition __checkAPIResponse {JS : JsString.Prototype} (resp : RESTlerResponse)
    (validator : option Validator) : Completion JSON :=
  let invalid (details : JSON) : Completion JSON :=
    (* [resp.body!.status_code] is read while the metadata is built *)
    match body resp with
    | JNull =>
        Throw (TypeError "Cannot read properties of null (reading 'status_code')")
    | JUndefined =>
        Throw (TypeError
                 "Cannot read properties of undefined (reading 'status_code')")
    | b =>
        Throw (SurepassError "RESPONSE_ERROR"
                 (Some {[ "status" := Js.prop b "status_code";
                          "details" := details ]}) None)
    end in
  match validate SurepassResponseSchema (body resp) with
  | inl error => invalid (listCauses error)
  | inr respObj =>
      if negb (Runtime.truthy_value respObj) then
        invalid (JStr "No response body received")
      else if match Js.prop respObj "success" with
              | JBool false => true
              | _ => false
              end
      then
        let status_code := Js.prop respObj "status_code" in
        let code :=
          if Js.num_is status_code 500 then "SERVICE_UNAVAILABLE"
          else if Js.num_is status_code 422 then "VERIFICATION_FAILED"
          else if Js.num_is status_code 401 then "INVALID_TOKEN"
          else if Js.num_is status_code 429 then "RATE_LIMIT_EXCEEDED"
          else "UNKNOWN_RESPONSE_ERROR" in
        Throw (SurepassError code
                 (Some {[ "statusCode" := Js.prop (body resp) "status_code";
                          "message" := Js.prop respObj "message";
                          "details" := Js.prop respObj "data" ]}) None)
      else
        match validator with
        | Some validator =>
            match validator (Js.prop respObj "data") with
            | inl validationError =>
                Throw (SurepassError "PARSE_ERROR"
                         (Some {[ "details" := listCauses validationError ]})
                         None)
            | inr validatedData => Return validatedData
            end
        | None => Return (Js.prop respObj "data")
        end
  end.

(** The request handed to the transport. *)
Record Request := mkRequest {
  path : string;
  method : string;
  contentType : string;
  payload : list (string * JSON)
}.

(** [this._makeRequest]: the injected transport. *)
Definition Transport : Type := Request -> Completion RESTlerResponse.

(** The [catch (cause)] block shared, up to the endpoint, by every
    operation. *)
Definition on_failure (endpoint : string) (cause : Exception)
  : Completion JSON :=
  match cause with
  | DomainError Surepass_vendor code message context cause' =>
      (* cause.context.endpoint = endpoint; throw cause *)
      Throw (DomainError Surepass_vendor code message
               (<["endpoint" := JStr endpoint]> context) cause')
  | _ =>
      Throw (SurepassError "UNHANDLED_ERROR"
               (Some {[ "endpoint" := JStr endpoint ]}) (Some cause))
  end.

Definition operation {JS : JsString.Prototype} (_makeRequest : Transport)
    (endpoint : string) (payload : list (string * JSON)) (schema : Validator)
  : Completion JSON :=
  Runtime.try_catch
    (Runtime.bind (_makeRequest (mkRequest endpoint "POST" "JSON" payload))
       (fun resp => __checkAPIResponse resp (Some schema)))
    (on_failure endpoint).

Section operations.
Context {JS : JsString.Prototype}.
Variable _makeRequest : Transport.
(** The schemas of the other endpoints, as validators. *)
Variables SurepassBankVerificationSchema SurepassPanComprehensiveSchema
  SurepassInitiateAadhaarVerificationSchema SurepassAadhaarVerificationSchema
  SurepassCompanyDetailsSchema SurepassGSTINDetailsSchema : Validator.

Definition compareNames (name1 name2 : string) (isCompany : bool)
  : Completion JSON :=
  operation _makeRequest "utils/name-matching/"
    [ ("name_1", JStr (JsString.trim name1));
      ("name_2", JStr (JsString.trim name2));
      ("name_type", JStr (if isCompany then "company" else "person")) ]
    (validate SurepassNameMatchSchema).

Definition verifyBankAccount (accountNumber ifsc : string) : Completion JSON :=
  operation _makeRequest "bank-verification"
    [ ("id_number", JStr accountNumber); ("ifsc", JStr ifsc);
      ("ifsc_details", JBool true) ]
    SurepassBankVerificationSchema.

Definition verifyPAN (pan : string) : Completion JSON :=
  operation _makeRequest "pan/pan-comprehensive-plus"
    [ ("id_number", JStr pan) ] SurepassPanComprehensiveSchema.

Definition initiateAadhaar (aadhaar : string) : Completion JSON :=
  operation _makeRequest "aadhaar-v2/generate-otp"
    [ ("id_number", JStr aadhaar) ] SurepassInitiateAadhaarVerificationSchema.

Definition fetchAadhaar (clientId otp : string) : Completion JSON :=
  operation _makeRequest "aadhaar-v2/submit-otp"
    [ ("client_id", JStr clientId); ("otp", JStr otp) ]
    SurepassAadhaarVerificationSchema.

Definition verifyCIN (cin : string) : Completion JSON :=
  operation _makeRequest "corporate/company-details"
    [ ("id_number", JStr cin) ] SurepassCompanyDetailsSchema.

Definition verifyGSTIN (gstin : string) : Completion JSON :=
  operation _makeRequest "corporate/gstin"
    [ ("id_number", JStr gstin) ] SurepassGSTINDetailsSchema.
End operations.

(** The options of the constructor: [mode] and the transport's options. *)
Record SurepassOptions := mkOptions {
  mode : string;
  auth : option string;
  baseURL : option string;
  version : option string;
  opt_contentType : option string;
  timeout : option Z;
  headers : option (gmap string string)
}.

(** The constructor up to [super(options)]: it either throws or hands the
    rewritten options on to the transport's constructor. *)
Definition constructor (options : SurepassOptions) : Completion SurepassOptions :=
  let baseURL :=
    if String.eqb (mode options) "SANDBOX"
    then "https://sandbox.surepass.app/api/{version}"
    else (* default: case 'PRODUCTION': *)
      "https://kyc-api.surepass.app/api/{version}" in
  Return
    {| mode := mode options;
       auth := auth options;
       baseURL := Some baseURL;
       version := Some "v1";
       opt_contentType := Some "JSON";
       timeout := Some 10;
       headers := Some {[ "Content-Type" := "application/json";
                          "Accept" := "application/json" ]} |}.

End Surepass.

(** ** OpenExchange *)

Module OpenExchange.

Definition OpenExchangeErrorCodes : list (string * string) :=
  [ ("UNKNOWN_ERROR", "An unknown error occurred in Open Exchange.");
    ("MISSING_APP_ID", "Application ID is required for the API request.");
    ("CONFIG_INVALID_APP_ID", "Application ID must be a non-empty string.");
    ("CONFIG_INVALID_BASE_CURRENCY",
      "Base currency must be a 3-character string, got ${baseCurrency}.");
    ("INVALID_APP_ID",
      "Invalid application ID provided (expired or de-activated application id).");
    ("NOT_FOUND", "The requested resource was not found.");
    ("NOT_ALLOWED",
      "This operation is not allowed with the current application ID.");
    ("RESPONSE_ERROR",
      "Got an invalid response/response status: ${status} from Open Exchange API.");
    ("SERVICE_UNAVAILABLE", "Open Exchange service is currently unavailable.") ].

Definition _messageTemplate : string :=
  "[OpenExchange] ${timeStamp}: ${message}".

(** [new OpenExchangeError(code, meta, cause)], up to the call
    [super(OpenExchangeErrorCodes[code], meta, cause)]. *)
Definition OpenExchangeError (code : string) (meta : option (gmap string JSON))
    (cause : option Exception) : Exception :=
  let '(code, meta) :=
    if negb (Runtime.truthy (Runtime.get OpenExchangeErrorCodes code)) then
      let meta := default ∅ meta in
      let meta := <["originalCode" := JStr code]> meta in
      ("UNKNOWN_ERROR", Some meta)
    else (code, meta) in
  DomainError OpenExchange_vendor code (Runtime.get OpenExchangeErrorCodes code)
    (default ∅ meta) cause.

Import Guardian.

Definition ErrorSchemaObject : Guard :=
  GSchema
    [ ("error", GBoolean (Some true));
      ("status", GNumber [num_in [400; 401; 403; 404; 429]]);
      ("message",
        GString [str_in [ "not_found"; "missing_app_id"; "invalid_app_id";
                          "not_allowed"; "access_restricted"; "invalid_base" ]]);
      ("description", GString []) ].

(** Guards of [schema/Common.ts] and the schema of [/latest.json]. *)
Definition disclaimerGuard : Guard := GString [minLength 5].
Definition licenseGuard : Guard := GString [minLength 5].
Definition timestampGuard : Guard := GNumber [min 0].
Definition baseGuard : Guard := GString [minLength 3; maxLength 3].
Definition RateSchemaObject : Guard :=
  GKeyValue (GString [minLength 3; maxLength 3]) (GNumber [positive]).

Definition LatestRatesSchemaObject : Guard :=
  GSchema
    [ ("disclaimer", GOptional disclaimerGuard);
      ("license", GOptional licenseGuard);
      ("timestamp", GOptional timestampGuard);
      ("base", GOptional baseGuard);
      ("rates", RateSchemaObject) ].

Record RESTlerResponse := mkResponse { status : Z; body : JSON }.

Definition error_status (status : Z) : bool :=
  (status =? 401) || (status =? 400) || (status =? 403) || (status =? 404)
  || (status =? 429).

Definition __handle {JS : JsString.Prototype} (resp : RESTlerResponse)
    (guard : Validator) : Completion JSON :=
  let meta : gmap string JSON :=
    {[ "status" := JNum (inject_Z (status resp)); "body" := body resp ]} in
  if status resp =? 200 then
    (* Its a body, handle and return it *)
    match guard (body resp) with
    | inl err => Throw (OpenExchangeError "RESPONSE_ERROR" (Some meta) None)
    | inr body => Return body
    end
  else if error_status (status resp) then
    match validate ErrorSchemaObject (body resp) with
    | inr body =>
        let message := Js.prop body "message" in
        if Js.str_is message "not_found" then
          Throw (OpenExchangeError "NOT_FOUND" (Some meta) None)
        else if Js.str_is message "missing_app_id" then
          Throw (OpenExchangeError "MISSING_APP_ID" (Some meta) None)
        else if Js.str_is message "invalid_app_id" then
          Throw (OpenExchangeError "INVALID_APP_ID" (Some meta) None)
        else if Js.str_is message "not_allowed"
                || Js.str_is message "access_restricted" then
          Throw (OpenExchangeError "NOT_ALLOWED" (Some meta) None)
        else Throw (OpenExchangeError "RESPONSE_ERROR" (Some meta) None)
    | inl err =>
        Throw (OpenExchangeError "RESPONSE_ERROR"
                 (Some (<["responseError" := toJSON err]> meta)) None)
    end
  else
    (* Unknown status code, try to parse as success response *)
    match guard (body resp) with
    | inl err =>
        Throw (OpenExchangeError "SERVICE_UNAVAILABLE"
                 (Some (<["responseError" := toJSON err]> meta)) None)
    | inr body => Return body
    end.

(** The endpoint handed to the transport. *)
Record RESTlerEndpoint := mkEndpoint {
  path : string;
  query : gmap string string
}.

Definition Transport : Type := RESTlerEndpoint -> Completion RESTlerResponse.

(** The [options] argument of the rate operations.  A key is absent
    ([None]), present and [undefined] ([Some None]) or present with a
    value. *)
Record RatesOptions := mkRatesOptions {
  base : option (option string);
  symbols : option (option (list string))
}.

Definition no_options : RatesOptions := mkRatesOptions None None.

Section client.
Context {JS : JsString.Prototype}.
(** The client: its configured base currency and its transport. *)
Variable baseCurrency : option string.
Variable _makeRequest : Transport.
(** [amount.toString()]. *)
Variable Number_toString : Q -> string.
(** The schemas of the other endpoints, as validators. *)
Variables UsageResponseSchemaObject CurrenciesSchemaObject
  HistoricalRatesSchemaObject TimeSeriesSchemaObject
  ConvertRequestSchemaObject OHLCSchemaObject : Validator.

(** [this.getOption('baseCurrency') || 'USD'] *)
Definition default_base : string :=
  match baseCurrency with
  | Some b => if JsString.truthy b then b else "USD"
  | None => "USD"
  end.

(** The [base] and [symbols] entries every rate operation adds to its
    query, after [options = { ...{ base: ... }, ...options }]. *)
Definition rates_query (query : gmap string string)
    (options : option RatesOptions) : gmap string string :=
  let options := default no_options options in
  let base : option string :=
    match base options with
    | None => Some default_base
    | Some b => b
    end in
  let symbols : option (list string) :=
    match symbols options with
    | None => None
    | Some s => s
    end in
  let query :=
    match base with
    | Some b =>
        if JsString.truthy b
        then <["base" := JsString.toUpperCase b]> query
        else query
    | None => query
    end in
  match symbols with
  | Some symbols =>
      if (0 <? length symbols)%nat then
        let symbols := map JsString.toUpperCase symbols in
        <["symbols" := JsString.join "," symbols]> query
      else query
  | None => query
  end.

Definition getStatus_request : RESTlerEndpoint := mkEndpoint "/status.json" ∅.

Definition getStatus : Completion JSON :=
  Runtime.bind (_makeRequest getStatus_request)
    (fun resp => __handle resp UsageResponseSchemaObject).

Definition listCurrencies_request : RESTlerEndpoint :=
  mkEndpoint "/currencies.json" ∅.

Definition listCurrencies : Completion JSON :=
  Runtime.bind (_makeRequest listCurrencies_request)
    (fun resp => __handle resp CurrenciesSchemaObject).

Definition getRates_request (options : option RatesOptions) : RESTlerEndpoint :=
  mkEndpoint "/latest.json" (rates_query ∅ options).

Definition getRates (options : option RatesOptions) : Completion JSON :=
  Runtime.bind (_makeRequest (getRates_request options)) (fun resp =>
  Runtime.bind (__handle resp (validate LatestRatesSchemaObject)) (fun ratesData =>
  Return (Js.prop ratesData "rates"))).

Definition getHistoricalRates_request (date : string)
    (options : option RatesOptions) : RESTlerEndpoint :=
  mkEndpoint ("/historical/" +:+ date +:+ ".json") (rates_query ∅ options).

Definition getHistoricalRates (date : string) (options : option RatesOptions)
  : Completion JSON :=
  Runtime.bind (_makeRequest (getHistoricalRates_request date options))
    (fun resp => __handle resp HistoricalRatesSchemaObject).

Definition getTimeSeries_request (startDate endDate : string)
    (options : option RatesOptions) : RESTlerEndpoint :=
  mkEndpoint "/time-series.json"
    (rates_query {[ "start" := startDate; "end" := endDate ]} options).

Definition getTimeSeries (startDate endDate : string)
    (options : option RatesOptions) : Completion JSON :=
  Runtime.bind (_makeRequest (getTimeSeries_request startDate endDate options))
    (fun resp => __handle resp TimeSeriesSchemaObject).

Definition getOHLC_request (startDate period : string)
    (options : option RatesOptions) : RESTlerEndpoint :=
  mkEndpoint "/ohlc.json"
    (rates_query {[ "start_date" := startDate; "period" := period ]} options).

Definition getOHLC (startDate period : string)
    (options : option RatesOptions) : Completion JSON :=
  Runtime.bind (_makeRequest (getOHLC_request startDate period options))
    (fun resp => __handle resp OHLCSchemaObject).

(** [convert]: [date] is [options?.date]. *)
Definition convert_request (amount : Q) (from to : string)
    (date : option string) : RESTlerEndpoint :=
  let query : gmap string string :=
    {[ "amount" := Number_toString amount;
       "from" := JsString.toUpperCase from;
       "to" := JsString.toUpperCase to ]} in
  let query :=
    match date with
    | Some d => if JsString.truthy d then <["date" := d]> query else query
    | None => query
    end in
  mkEndpoint "/convert.json" query.

Definition convert (amount : Q) (from to : string) (date : option string)
  : Completion JSON :=
  Runtime.bind (_makeRequest (convert_request amount from to date))
    (fun resp => __handle resp ConvertRequestSchemaObject).
End client.

End OpenExchange.

(** ** The base class of the error classes

    [BaseError] ([$utils]) is not under src/.  Its constructor renders the
    message text of the error by substituting the metadata into the table
    message and into the [_messageTemplate] of the class, and it can fail
    while doing so: the OpenExchange tests of the repository record an
    [Error] with the text "Circular reference detected during variable
    replacement" where [__handle] throws [SERVICE_UNAVAILABLE].  When the
    construction fails, the statement [throw new VendorError(...)] raises
    that failure, and no error of the vendor's class exists.

    The variable replacement of the library is a parameter: its verdict on
    a template, a message and a metadata object is [None] when the error is
    constructed, and the text of the failure otherwise. *)

Definition VariableReplacer : Type :=
  string -> JsProp -> gmap string JSON -> option string.

Definition template_of (vendor : Vendor) : string :=
  match vendor with
  | Surepass_vendor => Surepass._messageTemplate
  | OpenExchange_vendor => OpenExchange._messageTemplate
  end.

(** What [throw new VendorError(...)] raises. *)
Definition BaseError (variableReplacer : VariableReplacer) (e : Exception)
  : Exception :=
  match e with
  | DomainError vendor code message context cause =>
      match variableReplacer (template_of vendor) message context with
      | None => e
      | Some failure => JsError failure
      end
  | _ => e
  end.

(** The completion of a response handler as its caller receives it: between
    a [throw new VendorError(...)] of [__handle] or [__checkAPIResponse] and
    the end of the handler there is no [catch], so the handler ends with
    what the statement raises. *)
Definition raised {A : Type} (variableReplacer : VariableReplacer)
    (c : Completion A) : Completion A :=
  match c with
  | Return a => Return a
  | Throw e => Throw (BaseError variableReplacer e)
  end.

(** ** Specification vocabulary *)

(** The body of a well-formed address: 1 to 64 hexadecimal digits. *)
Definition hex_body (h : string) : Prop :=
  (1 <= String.length h <= 64)%nat /\ JsString.forallb Aptos.is_hex_digit h = true.

(** The fields of an object schema, validated one by one. *)
Definition validate_fields {JS : JsString.Prototype} (o : list (string * JSON))
  : list (string * Guardian.Guard) -> Guardian.GuardianError + list (string * JSON) :=
  fix go fs :=
    match fs with
    | [] => inr []
    | (k, gk) :: fs' =>
        Guardian.combine k (Guardian.validate gk (Js.field o k)) (go fs')
    end.

(** A field as validation passes it on: [null] counts as absent. *)
Definition present (v : JSON) : JSON :=
  match v with
  | JNull => JUndefined
  | _ => v
  end.

(** The mapping tables as the specification states them. *)
Definition Surepass_status_mapping : list (Z * string) :=
  [ (401, "INVALID_TOKEN"); (429, "RATE_LIMIT_EXCEEDED");
    (500, "SERVICE_UNAVAILABLE"); (422, "VERIFICATION_FAILED") ].

Definition OpenExchange_message_mapping : list (string * string) :=
  [ ("invalid_app_id", "INVALID_APP_ID"); ("missing_app_id", "MISSING_APP_ID");
    ("not_found", "NOT_FOUND"); ("not_allowed", "NOT_ALLOWED");
    ("access_restricted", "NOT_ALLOWED") ].

(** The completion is [throw new VendorError(code, context)]: the selected
    code is [code] and the message handed to the base class is its entry in
    the vendor's table. *)
Definition throws_code {A : Type} (vendor : Vendor)
    (table : list (string * string)) (code : string) (c : Completion A) : Prop :=
  exists text context,
    Runtime.own table code = Some text
    /\ c = Throw (DomainError vendor code (POwn text) context None).

(** The completion is what [throw new VendorError(code, context)] raises,
    for a code of the vendor's table: the error of the vendor's class when
    the base class constructs it, and the failure of the construction
    otherwise. *)
Definition raises_code {A : Type} (variableReplacer : VariableReplacer)
    (vendor : Vendor) (table : list (string * string)) (code : string)
    (c : Completion A) : Prop :=
  exists text context,
    Runtime.own table code = Some text
    /\ c = Throw
             match variableReplacer (template_of vendor) (POwn text) context with
             | None => DomainError vendor code (POwn text) context None
             | Some failure => JsError failure
             end.

(** The latest-rates body the OpenExchange tests answer with. *)
Definition mockLatestRatesResponse : JSON :=
  JObj
    [ ("disclaimer",
        JStr "Exchange rates are provided for informational purposes only and do not constitute financial advice.");
      ("license", JStr "https://openexchangerates.org/license");
      ("timestamp", JNum 1640995200);
      ("base", JStr "USD");
      ("rates",
        JObj [ ("EUR", JNum (883 # 1000)); ("GBP", JNum (741 # 1000));
               ("JPY", JNum (11501 # 100)); ("CAD", JNum (1264 # 1000)) ]) ].

(** The public operations of the Surepass client, each with its endpoint. *)
Definition Surepass_calls {JS : JsString.Prototype}
    (_makeRequest : Surepass.Transport)
    (bank pan initiate fetch company gstin : Guardian.Validator)
    (a b : string) (flag : bool) : list (string * Completion JSON) :=
  [ ("utils/name-matching/", Surepass.compareNames _makeRequest a b flag);
    ("bank-verification", Surepass.verifyBankAccount _makeRequest bank a b);
    ("pan/pan-comprehensive-plus", Surepass.verifyPAN _makeRequest pan a);
    ("aadhaar-v2/generate-otp", Surepass.initiateAadhaar _makeRequest initiate a);
    ("aadhaar-v2/submit-otp", Surepass.fetchAadhaar _makeRequest fetch a b);
    ("corporate/company-details", Surepass.verifyCIN _makeRequest company a);
    ("corporate/gstin", Surepass.verifyGSTIN _makeRequest gstin a) ].

(** The public operations of the OpenExchange client, each with the request
    it hands to the transport. *)
Definition OpenExchange_calls {JS : JsString.Prototype}
    (baseCurrency : option string)
    (_makeRequest : OpenExchange.Transport) (Number_toString : Q -> string)
    (usage currencies historical series conversion ohlc : Guardian.Validator)
    (a b : string) (amount : Q) (date : option string)
    (options : option OpenExchange.RatesOptions)
  : list (OpenExchange.RESTlerEndpoint * Completion JSON) :=
  [ (OpenExchange.getStatus_request, OpenExchange.getStatus _makeRequest usage);
    (OpenExchange.listCurrencies_request,
      OpenExchange.listCurrencies _makeRequest currencies);
    (OpenExchange.getRates_request baseCurrency options,
      OpenExchange.getRates baseCurrency _makeRequest options);
    (OpenExchange.getHistoricalRates_request baseCurrency a options,
      OpenExchange.getHistoricalRates baseCurrency _makeRequest historical a options);
    (OpenExchange.getTimeSeries_request baseCurrency a b options,
      OpenExchange.getTimeSeries baseCurrency _makeRequest series a b options);
    (OpenExchange.convert_request Number_toString amount a b date,
      OpenExchange.convert _makeRequest Number_toString conversion amount a b date);
    (OpenExchange.getOHLC_request baseCurrency a b options,
      OpenExchange.getOHLC baseCurrency _makeRequest ohlc a b options) ].

(** Whatever the operation throws is a [SurepassError] whose context names
    the endpoint. *)
Definition typed_failure (endpoint : string) (result : Completion JSON) : Prop :=
  match result with
  | Return _ => True
  | Throw e =>
      exists code message context cause,
        e = DomainError Surepass_vendor code message context cause
        /\ context !! "endpoint" = Some (JStr endpoint)
  end.

(** [failure] arises during a Surepass operation: it is thrown by the
    transport, or by the response check on what the transport returned. *)
Definition arises {JS : JsString.Prototype}
    (_makeRequest : Surepass.Transport) (endpoint : string)
    (payload : list (string * JSON)) (schema : Guardian.Validator)
    (failure : Exception) : Prop :=
  let request := Surepass.mkRequest endpoint "POST" "JSON" payload in
  _makeRequest request = Throw failure
  \/ exists resp,
       _makeRequest request = Return resp
       /\ Surepass.__checkAPIResponse resp (Some schema) = Throw failure.

(** What reaches the caller of a Surepass operation for a failure: the same
    error with the endpoint added to its context when it is a
    [SurepassError], and otherwise an [UNHANDLED_ERROR] that wraps it. *)
Definition surfaced (endpoint : string) (failure : Exception) : Exception :=
  match failure with
  | DomainError Surepass_vendor code message context cause =>
      DomainError Surepass_vendor code message
        (<["endpoint" := JStr endpoint]> context) cause
  | _ =>
      DomainError Surepass_vendor "UNHANDLED_ERROR"
        (POwn "An unhandled error occurred.")
        {[ "endpoint" := JStr endpoint ]} (Some failure)
  end.

(** ** Further code of the clients *)

Module AptosClient.

(** The options the constructor hands to the transport's constructor. *)
Record RESTlerOptions := mkOptions {
  version : string;
  baseURL : string;
  contentType : string;
  timeout : Z
}.

(** [new Aptos(mode)]; [None] is an omitted argument.  The result is the
    options passed to [super] and the value kept as [this.mode]. *)
Definition constructor (mode : option string)
  : Completion (RESTlerOptions * string) :=
  let mode := default "MAINNET" mode in
  let options (baseURL : string) := mkOptions "v1" baseURL "JSON" 10 in
  if String.eqb mode "DEVNET" then
    Return (options "https://fullnode.devnet.aptoslabs.com/{version}", mode)
  else if String.eqb mode "TESTNET" then
    Return (options "https://fullnode.testnet.aptoslabs.com/{version}", mode)
  else if String.eqb mode "MAINNET" then
    Return (options "https://fullnode.mainnet.aptoslabs.com/{version}", mode)
  else Throw (JsError ("Invalid mode: " +:+ mode)).

(** The getter [faucetURL] of a client whose [this.mode] is [mode]. *)
Definition faucetURL (mode : string) : Completion (option string) :=
  if String.eqb mode "DEVNET" then
    Return (Some "https://faucet.devnet.aptoslabs.com")
  else if String.eqb mode "TESTNET" then
    Return (Some "https://faucet.testnet.aptoslabs.com")
  else if String.eqb mode "MAINNET" then Return None
  else Throw (JsError ("Invalid mode: " +:+ mode)).

(** [/^0x[0-9a-fA-F]+$/.test(s)]. *)
Definition address_pattern_test (s : string) : bool :=
  match s with
  | String "0" (String "x" digits) => Aptos.hexRegex_test digits
  | _ => false
  end.

(** Modelled from the spec: the guard of the [address] field of
    [AptosAccountObject],
    [Guardian.string().startsWith('0x').pattern(...).maxLength(66)], with
    the rules of the schema library checked in their order. *)
Definition AptosAccount_address : Guardian.Validator :=
  fun v =>
    match v with
    | JStr s =>
        if negb (JsString.startsWith "0x" s) then
          Guardian.fail "string does not start with 0x"
        else if negb (address_pattern_test s) then
          Guardian.fail "string does not match the pattern"
        else if (66 <? String.length s)%nat then
          Guardian.fail "string is too long"
        else inr (JStr s)
    | _ => Guardian.fail "expected a string"
    end.

End AptosClient.

Module OpenExchangeClient.

(** [_authInjector]: the query of the request after the injection.  [appId]
    is the configured option, [None] when [hasOption('appId')] is false; a
    request without a query has [None]. *)
Definition _authInjector (appId : option string)
    (query : option (gmap string string)) : option (gmap string string) :=
  match appId with
  | Some id =>
      let query := default ∅ query in
      Some (<["app_id" := id]> query)
  | None => query
  end.

(** [_processOption(key, value)]; [super_processOption] is the method of
    the transport's class. *)
Definition _processOption {JS : JsString.Prototype}
    (super_processOption : string -> JSON -> Completion JSON)
    (key : string) (value : JSON) : Completion JSON :=
  if String.eqb key "appId" then
    match value with
    | JStr s =>
        if String.eqb (JsString.trim s) "" then
          Throw (OpenExchange.OpenExchangeError "CONFIG_INVALID_APP_ID"
                   (Some {[ "appId" := value ]}) None)
        else super_processOption key (JStr (JsString.trim s))
    | _ =>
        Throw (OpenExchange.OpenExchangeError "CONFIG_INVALID_APP_ID"
                 (Some {[ "appId" := value ]}) None)
    end
  else if String.eqb key "baseCurrency" then
    match value with
    | JStr s =>
        if negb (String.length s =? 3)%nat then
          Throw (OpenExchange.OpenExchangeError "CONFIG_INVALID_BASE_CURRENCY"
                   (Some {[ "baseCurrency" := value ]}) None)
        else super_processOption key (JStr (JsString.toUpperCase s))
    | _ =>
        Throw (OpenExchange.OpenExchangeError "CONFIG_INVALID_BASE_CURRENCY"
                 (Some {[ "baseCurrency" := value ]}) None)
    end
  else super_processOption key value.

End OpenExchangeClient.

(** ** Further specification vocabulary *)

(** The entries of a key/value schema, validated one by one. *)
Definition validate_entries {JS : JsString.Prototype}
    (key value : Guardian.Guard)
  : list (string * JSON) -> Guardian.GuardianError + list (string * JSON) :=
  fix go entries :=
    match entries with
    | [] => inr []
    | (k, x) :: rest =>
        match Guardian.validate key (JStr k) with
        | inl e => Guardian.combine k (inl e) (go rest)
        | inr _ => Guardian.combine k (Guardian.validate value x) (go rest)
        end
    end.

(** The guard accepts the value. *)
Definition accepts {JS : JsString.Prototype} (g : Guardian.Guard) (v : JSON)
  : Prop :=
  exists r, Guardian.validate g v = inr r.

(** A field that may be left out: absent, [null], or as [P] describes. *)
Definition absent_or (P : JSON -> Prop) (v : JSON) : Prop :=
  v = JUndefined \/ v = JNull \/ P v.

(** An exchange rate as the rate schema admits it: a positive number under
    a code of three characters. *)
Definition is_rate (entry : string * JSON) : Prop :=
  String.length (fst entry) = 3%nat
  /\ exists q, snd entry = JNum q /\ (0 < q)%Q.

(** The codes [__handle] throws. *)
Definition handle_codes : list string :=
  [ "RESPONSE_ERROR"; "NOT_FOUND"; "MISSING_APP_ID"; "INVALID_APP_ID";
    "NOT_ALLOWED"; "SERVICE_UNAVAILABLE" ].

(** The string has no white space at either end. *)
Definition no_outer_space (s : string) : Prop :=
  JsString.trimStart s = s /\ JsString.trimEnd s = s.

(** ** An engine for concrete inputs

    The examples that follow the theorems evaluate the definitions on inputs
    written in ASCII; on those the upper case is the folding of the letters
    [a] to [z]. *)
#[global] Instance ascii_engine : JsString.Prototype :=
  {| JsString.toUpperCase := JsString.asciiUpperCase |}.

(** * Properties *)

(** ** Strings *)

Lemma append_String (a : ascii) (s t : string) :
  String a s +:+ t = String a (s +:+ t).
Proof. reflexivity. Qed.

Lemma append_empty (t : string) : EmptyString +:+ t = t.
Proof. reflexivity. Qed.

Lemma slice_startsWith (p s : string) :
  JsString.startsWith p s = true ->
  s = p +:+ JsString.slice (String.length p) s.
Proof.
  revert s; induction p as [|a p IH]; intros s H; simpl in *; [done|].
  destruct s as [|b s]; [done|].
  apply andb_prop in H as [Hab Hp]. apply Ascii.eqb_eq in Hab. subst b.
  simpl. rewrite append_String. f_equal. by apply IH.
Qed.

Lemma startsWith_app (p s : string) : JsString.startsWith p (p +:+ s) = true.
Proof.
  induction p as [|a p IH]; [done|].
  rewrite append_String. simpl. rewrite Ascii.eqb_refl. exact IH.
Qed.

Lemma slice_app (p s : string) : JsString.slice (String.length p) (p +:+ s) = s.
Proof.
  induction p as [|a p IH]; [by destruct s|].
  rewrite append_String. exact IH.
Qed.

Lemma length_app (s t : string) :
  String.length (s +:+ t) = (String.length s + String.length t)%nat.
Proof.
  induction s as [|a s IH]; [done|].
  rewrite append_String. simpl. by rewrite IH.
Qed.

Lemma length_repeat (c : ascii) (n : nat) : String.length (JsString.repeat c n) = n.
Proof. induction n as [|n IH]; simpl; [done|by rewrite IH]. Qed.

Lemma forallb_app (p : ascii -> bool) (s t : string) :
  JsString.forallb p (s +:+ t) = JsString.forallb p s && JsString.forallb p t.
Proof.
  induction s as [|a s IH]; [done|].
  rewrite append_String. simpl. rewrite IH. by rewrite andb_assoc.
Qed.

Lemma forallb_repeat (p : ascii -> bool) (c : ascii) (n : nat) :
  p c = true -> JsString.forallb p (JsString.repeat c n) = true.
Proof. intros Hc. induction n as [|n IH]; simpl; [done|by rewrite Hc, IH]. Qed.

Lemma padStart_length (n : nat) (c : ascii) (s : string) :
  (String.length s <= n)%nat -> String.length (JsString.padStart n c s) = n.
Proof.
  intros Hle. unfold JsString.padStart. rewrite length_app, length_repeat. lia.
Qed.

Lemma padStart_full (n : nat) (c : ascii) (s : string) :
  String.length s = n -> JsString.padStart n c s = s.
Proof.
  intros Hlen. unfold JsString.padStart.
  replace (n - String.length s)%nat with 0%nat by lia. done.
Qed.

(** ** Aptos addresses *)

Lemma slice_0x (h : string) : JsString.slice 2 ("0x" +:+ h) = h.
Proof. exact (slice_app "0x" h). Qed.

Lemma hexRegex_test_spec (h : string) :
  Aptos.hexRegex_test h = true <->
  (1 <= String.length h)%nat /\ JsString.forallb Aptos.is_hex_digit h = true.
Proof.
  destruct h as [|a h]; simpl.
  - split; [done|]. intros [Hlen _]. simpl in Hlen. lia.
  - split; [intros H; split; [lia|exact H]|by intros [_ H]].
Qed.

Lemma isValidAddress_spec (address : string) :
  Aptos.isValidAddress address = true <->
  exists h, address = "0x" +:+ h /\ hex_body h.
Proof.
  unfold Aptos.isValidAddress, hex_body. cbv zeta. split.
  - destruct (JsString.startsWith "0x" address) eqn:Hpre;
      cbv [negb]; [|discriminate].
    destruct (Aptos.hexRegex_test (JsString.slice 2 address)) eqn:Hhex;
      [|discriminate].
    destruct (64 <? String.length (JsString.slice 2 address))%nat eqn:Hlen;
      [discriminate|]. intros _.
    apply Nat.ltb_ge in Hlen. apply hexRegex_test_spec in Hhex as [H1 Hall].
    exists (JsString.slice 2 address). split; [|by auto].
    exact (slice_startsWith "0x" address Hpre).
  - intros (h & -> & [H1 H64] & Hall).
    rewrite (startsWith_app "0x" h). cbv [negb].
    rewrite slice_0x.
    assert (Aptos.hexRegex_test h = true) as -> by by apply hexRegex_test_spec.
    assert ((64 <? String.length h)%nat = false) as ->
      by (apply Nat.ltb_ge; lia).
    done.
Qed.

Lemma normalizeAddress_valid (h : string) :
  hex_body h ->
  Aptos.normalizeAddress ("0x" +:+ h) =
    Some ("0x" +:+ JsString.repeat "0" (64 - String.length h) +:+ h).
Proof.
  intros Hh. unfold Aptos.normalizeAddress. cbv zeta.
  assert (Aptos.isValidAddress ("0x" +:+ h) = true) as ->
    by (apply isValidAddress_spec; eauto).
  cbv [negb].
  by rewrite slice_0x.
Qed.

Lemma padded_hex_body (h : string) :
  hex_body h ->
  String.length (JsString.repeat "0" (64 - String.length h) +:+ h) = 64%nat
  /\ JsString.forallb Aptos.is_hex_digit
       (JsString.repeat "0" (64 - String.length h) +:+ h) = true.
Proof.
  intros [[H1 H64] Hall]. split.
  - rewrite length_app, length_repeat. lia.
  - rewrite forallb_app, Hall, forallb_repeat; done.
Qed.

(** C10: [normalizeAddress] returns [null] exactly when [isValidAddress]
    returns false; the valid addresses are the strings ["0x" ++ h] with [h]
    made of 1 to 64 hexadecimal digits, and for them the result is ["0x"]
    followed by [h] left-padded with zeros to 64 hexadecimal digits;
    normalising a normalised address returns it unchanged. *)
Theorem normalizeAddress_spec (address : string) :
  (Aptos.normalizeAddress address = None <->
     Aptos.isValidAddress address = false)
  /\ (Aptos.isValidAddress address = true <->
        exists h, address = "0x" +:+ h /\ hex_body h)
  /\ (forall h, address = "0x" +:+ h -> hex_body h ->
        let padded := JsString.repeat "0" (64 - String.length h) +:+ h in
        Aptos.normalizeAddress address = Some ("0x" +:+ padded)
        /\ String.length padded = 64%nat
        /\ JsString.forallb Aptos.is_hex_digit padded = true)
  /\ (forall normalized, Aptos.normalizeAddress address = Some normalized ->
        Aptos.normalizeAddress normalized = Some normalized).
Proof.
  split; [|split; [|split]].
  - unfold Aptos.normalizeAddress.
    destruct (Aptos.isValidAddress address); simpl; split; congruence.
  - apply isValidAddress_spec.
  - intros h -> Hh padded. split; [by apply normalizeAddress_valid|].
    by apply padded_hex_body.
  - intros normalized Hnorm.
    destruct (Aptos.isValidAddress address) eqn:Hvalid.
    + apply isValidAddress_spec in Hvalid as (h & -> & Hh).
      rewrite (normalizeAddress_valid h Hh) in Hnorm.
      injection Hnorm as <-.
      destruct (padded_hex_body h Hh) as [Hlen Hall].
      rewrite normalizeAddress_valid.
      * rewrite Hlen. reflexivity.
      * split; [lia|done].
    + unfold Aptos.normalizeAddress in Hnorm. by rewrite Hvalid in Hnorm.
Qed.

(** The address ["0x1"] is normalised to 63 zeros followed by [1], and that
    address is its own normal form. *)
Lemma normalizeAddress_spec_witness :
  let normalized :=
    "0x0000000000000000000000000000000000000000000000000000000000000001" in
  Aptos.normalizeAddress "0x1" = Some normalized
  /\ Aptos.normalizeAddress normalized = Some normalized.
Proof.
  intros normalized.
  destruct (normalizeAddress_spec "0x1") as (_ & _ & Hpad & Hidem).
  assert (Aptos.normalizeAddress "0x1" = Some normalized) as Hnorm.
  { apply (Hpad "1"); [reflexivity|]. split; [simpl; lia|reflexivity]. }
  split; [exact Hnorm|]. exact (Hidem normalized Hnorm).
Defined.

(** ** The Surepass constructor *)

(** C9: the constructor raises nothing for an unrecognised mode.  For every
    mode other than ['SANDBOX'] it selects the production base URL, and
    whatever the caller supplied as base URL, version, content type and
    timeout is overwritten with the fixed values. *)
Theorem Surepass_constructor_options (options : Surepass.SurepassOptions) :
  exists options',
    Surepass.constructor options = Return options'
    /\ (Surepass.mode options <> "SANDBOX" ->
          Surepass.baseURL options' =
            Some "https://kyc-api.surepass.app/api/{version}")
    /\ (Surepass.mode options = "SANDBOX" ->
          Surepass.baseURL options' =
            Some "https://sandbox.surepass.app/api/{version}")
    /\ Surepass.version options' = Some "v1"
    /\ Surepass.opt_contentType options' = Some "JSON"
    /\ Surepass.timeout options' = Some 10.
Proof.
  eexists. split; [reflexivity|]. simpl.
  repeat split.
  - intros Hmode. apply String.eqb_neq in Hmode. by rewrite Hmode.
  - intros ->. reflexivity.
Qed.

(** A mode outside the declared union, with every overwritten option
    supplied by the caller. *)
Lemma Surepass_constructor_options_witness :
  exists options',
    Surepass.constructor
      (Surepass.mkOptions "STAGING" (Some "token") (Some "https://example.test")
         (Some "v9") (Some "XML") (Some 99) None) = Return options'
    /\ Surepass.baseURL options' =
         Some "https://kyc-api.surepass.app/api/{version}"
    /\ Surepass.version options' = Some "v1"
    /\ Surepass.opt_contentType options' = Some "JSON"
    /\ Surepass.timeout options' = Some 10.
Proof.
  destruct (Surepass_constructor_options
              (Surepass.mkOptions "STAGING" (Some "token")
                 (Some "https://example.test") (Some "v9") (Some "XML")
                 (Some 99) None))
    as (options' & Hret & Hprod & _ & Hversion & Hcontent & Htimeout).
  exists options'. split; [exact Hret|].
  split; [apply Hprod; discriminate|]. auto.
Defined.

(** ** OpenExchange: request building *)

Lemma upper_ascii_not_lower (a : ascii) :
  JsString.between "a" "z" (JsString.upper_ascii a) = false.
Proof.
  unfold JsString.upper_ascii.
  destruct (JsString.between "a" "z" a) eqn:Hlow; [|exact Hlow].
  unfold JsString.between in *.
  change (nat_of_ascii "a") with 97%nat in *.
  change (nat_of_ascii "z") with 122%nat in *.
  apply andb_prop in Hlow as [Hlo Hhi].
  apply Nat.leb_le in Hlo, Hhi.
  rewrite nat_ascii_embedding by lia.
  apply andb_false_iff. left. apply Nat.leb_gt. lia.
Qed.

Lemma asciiUpperCase_no_lower (s : string) :
  JsString.forallb (fun a => negb (JsString.between "a" "z" a))
    (JsString.asciiUpperCase s) = true.
Proof.
  induction s as [|a s IH]; simpl; [done|].
  by rewrite upper_ascii_not_lower, IH.
Qed.

Lemma asciiUpperCase_idempotent (s : string) :
  JsString.asciiUpperCase (JsString.asciiUpperCase s) = JsString.asciiUpperCase s.
Proof.
  induction s as [|a s IH]; simpl; [done|]. rewrite IH. f_equal.
  unfold JsString.upper_ascii at 1. by rewrite upper_ascii_not_lower.
Qed.

Lemma asciiUpperCase_length (s : string) :
  String.length (JsString.asciiUpperCase s) = String.length s.
Proof. induction s as [|a s IH]; simpl; [done|by rewrite IH]. Qed.

Lemma upper_ascii_below (a : ascii) :
  (nat_of_ascii a <? 128)%nat = true ->
  (nat_of_ascii (JsString.upper_ascii a) <? 128)%nat = true.
Proof.
  intros Ha. unfold JsString.upper_ascii.
  destruct (JsString.between "a" "z" a) eqn:Hlow; [|exact Ha].
  apply Nat.ltb_lt in Ha. apply Nat.ltb_lt.
  rewrite nat_ascii_embedding by lia. lia.
Qed.

Lemma asciiUpperCase_ascii (s : string) :
  JsString.is_ascii s = true ->
  JsString.is_ascii (JsString.asciiUpperCase s) = true.
Proof.
  unfold JsString.is_ascii.
  induction s as [|a s IH]; simpl; [done|].
  intros [Ha Hs]%andb_prop. by rewrite upper_ascii_below, IH.
Qed.

(** On ASCII text the upper case of the engine is the folding of the
    letters: it keeps the length, leaves no lower-case letter and is not
    changed by a second folding. *)
Lemma toUpperCase_ascii {JS : JsString.Prototype} (s : string) :
  JsString.folds_ascii ->
  JsString.is_ascii s = true ->
  JsString.toUpperCase s = JsString.asciiUpperCase s
  /\ JsString.toUpperCase (JsString.toUpperCase s) = JsString.toUpperCase s
  /\ String.length (JsString.toUpperCase s) = String.length s
  /\ JsString.forallb (fun a => negb (JsString.between "a" "z" a))
       (JsString.toUpperCase s) = true.
Proof.
  intros Hfolds Hascii. rewrite (Hfolds s Hascii).
  rewrite (Hfolds _ (asciiUpperCase_ascii s Hascii)).
  split; [done|]. split; [apply asciiUpperCase_idempotent|].
  split; [apply asciiUpperCase_length|apply asciiUpperCase_no_lower].
Qed.

Lemma rates_query_symbols {JS : JsString.Prototype}
    (baseCurrency : option string)
    (query : gmap string string) (options : option OpenExchange.RatesOptions) :
  query !! "symbols" = None ->
  OpenExchange.rates_query baseCurrency query options !! "symbols" =
    match options with
    | Some (OpenExchange.mkRatesOptions _ (Some (Some (s :: rest)))) =>
        Some (JsString.join "," (map JsString.toUpperCase (s :: rest)))
    | _ => None
    end.
Proof.
  intros Hquery. unfold OpenExchange.rates_query. cbv zeta.
  set (with_base := match _ with Some b => _ | None => query end).
  assert (with_base !! "symbols" = None) as Hbase.
  { subst with_base.
    destruct (match OpenExchange.base (default OpenExchange.no_options options)
              with Some b => b | None => _ end) as [b|]; [|done].
    destruct (JsString.truthy b); [|done].
    by rewrite lookup_insert_ne. }
  destruct options as [[b [[[|s rest]|]|]]|]; simpl; try done.
  by rewrite lookup_insert_eq.
Qed.

(** C8: [convert] puts [from.toUpperCase()] and [to.toUpperCase()] into the
    query, whatever the case of the input: for codes written in ASCII the
    values sent keep the length of the input and hold no lower-case letter.
    Every rate operation serialises a non-empty [symbols] list as one
    comma-joined string of upper-cased codes, and leaves the [symbols] key
    out of the query when the list is absent, [undefined] or empty. *)
Theorem request_query_normalized {JS : JsString.Prototype}
    (baseCurrency : option string) (Number_toString : Q -> string) :
  (forall amount from to date,
     let query := OpenExchange.query
       (OpenExchange.convert_request Number_toString amount from to date) in
     query !! "from" = Some (JsString.toUpperCase from)
     /\ query !! "to" = Some (JsString.toUpperCase to))
  /\ (JsString.folds_ascii ->
      forall amount from to date,
        JsString.is_ascii from = true -> JsString.is_ascii to = true ->
        let query := OpenExchange.query
          (OpenExchange.convert_request Number_toString amount from to date) in
        exists sent_from sent_to,
          query !! "from" = Some sent_from /\ query !! "to" = Some sent_to
          /\ sent_from = JsString.asciiUpperCase from
          /\ sent_to = JsString.asciiUpperCase to
          /\ String.length sent_from = String.length from
          /\ String.length sent_to = String.length to
          /\ JsString.forallb (fun a => negb (JsString.between "a" "z" a))
               sent_from = true
          /\ JsString.forallb (fun a => negb (JsString.between "a" "z" a))
               sent_to = true)
  /\ (forall options date startDate endDate period request,
        In request
          [ OpenExchange.getRates_request baseCurrency options;
            OpenExchange.getHistoricalRates_request baseCurrency date options;
            OpenExchange.getTimeSeries_request baseCurrency startDate endDate options;
            OpenExchange.getOHLC_request baseCurrency startDate period options ] ->
        OpenExchange.query request !! "symbols" =
          match options with
          | Some (OpenExchange.mkRatesOptions _ (Some (Some (s :: rest)))) =>
              Some (JsString.join "," (map JsString.toUpperCase (s :: rest)))
          | _ => None
          end).
Proof.
  assert (forall amount from to date,
            let query := OpenExchange.query
              (OpenExchange.convert_request Number_toString amount from to date) in
            query !! "from" = Some (JsString.toUpperCase from)
            /\ query !! "to" = Some (JsString.toUpperCase to)) as Hconvert.
  { intros amount from to date query. subst query.
    unfold OpenExchange.convert_request. cbv zeta.
    split; destruct date as [d|]; [destruct (JsString.truthy d)| |
                                   destruct (JsString.truthy d)|]; simpl;
      by simplify_map_eq. }
  split; [exact Hconvert|]. split.
  - intros Hfolds amount from to date Hfrom Hto query. subst query.
    destruct (Hconvert amount from to date) as [Hsent_from Hsent_to].
    destruct (toUpperCase_ascii from Hfolds Hfrom) as (Hf & _ & Hflen & Hflow).
    destruct (toUpperCase_ascii to Hfolds Hto) as (Ht & _ & Htlen & Htlow).
    exists (JsString.toUpperCase from), (JsString.toUpperCase to).
    repeat split; assumption.
  - intros options date startDate endDate period request Hin.
    simpl in Hin.
    destruct Hin as [<-|[<-|[<-|[<-|[]]]]]; simpl;
      apply rates_query_symbols; by simplify_map_eq.
Qed.

(** [convert(100, 'usd', 'eur')] and [getRates] with lower-case, with empty
    and with no symbols. *)
Lemma request_query_normalized_witness :
  let toString : Q -> string := fun _ => "100" in
  let convert_query :=
    OpenExchange.query
      (OpenExchange.convert_request toString 100 "usd" "eur" None) in
  let symbols_of (symbols : option (option (list string))) :=
    OpenExchange.query
      (OpenExchange.getRates_request None
         (Some (OpenExchange.mkRatesOptions (Some (Some "eur")) symbols)))
      !! "symbols" in
  convert_query !! "from" = Some "USD"
  /\ convert_query !! "to" = Some "EUR"
  /\ symbols_of (Some (Some ["usd"; "gbp"])) = Some "USD,GBP"
  /\ symbols_of (Some (Some [])) = None
  /\ symbols_of None = None.
Proof.
  intros toString convert_query symbols_of.
  destruct (request_query_normalized None toString)
    as (_ & Hconvert & Hrates).
  assert (JsString.folds_ascii) as Hfolds by (intros s _; reflexivity).
  destruct (Hconvert Hfolds 100%Q "usd" "eur" None eq_refl eq_refl)
    as (sent_from & sent_to & Hfrom & Hto & -> & -> & _).
  split; [exact Hfrom|]. split; [exact Hto|].
  split; [|split].
  - apply (Hrates (Some (OpenExchange.mkRatesOptions (Some (Some "eur"))
                           (Some (Some ["usd"; "gbp"])))) "" "" "" "").
    simpl. auto.
  - apply (Hrates (Some (OpenExchange.mkRatesOptions (Some (Some "eur"))
                           (Some (Some [])))) "" "" "" "").
    simpl. auto.
  - apply (Hrates (Some (OpenExchange.mkRatesOptions (Some (Some "eur")) None))
             "" "" "" "").
    simpl. auto.
Defined.

(** ** The error constructors *)

Lemma own_truthy (table : list (string * string)) (code text : string) :
  forallb (fun entry => JsString.truthy (snd entry)) table = true ->
  Runtime.own table code = Some text ->
  JsString.truthy text = true.
Proof.
  induction table as [|[k v] table IH]; simpl; [done|].
  intros [Hv Hrest]%andb_prop Hown.
  destruct (String.eqb k code); [by injection Hown as <-|by apply IH].
Qed.

Lemma SurepassError_known (code text : string)
    (meta : option (gmap string JSON)) (cause : option Exception) :
  Runtime.own Surepass.SurepassErrorCodes code = Some text ->
  Surepass.SurepassError code meta cause =
    DomainError Surepass_vendor code (POwn text) (default ∅ meta) cause.
Proof.
  intros Hown. unfold Surepass.SurepassError, Runtime.get. rewrite Hown.
  change (Runtime.truthy (POwn text)) with (JsString.truthy text).
  rewrite (own_truthy Surepass.SurepassErrorCodes code text);
    [| by vm_compute | exact Hown].
  cbn [negb]. cbv iota beta. by rewrite Hown.
Qed.

Lemma OpenExchangeError_known (code text : string)
    (meta : option (gmap string JSON)) (cause : option Exception) :
  Runtime.own OpenExchange.OpenExchangeErrorCodes code = Some text ->
  OpenExchange.OpenExchangeError code meta cause =
    DomainError OpenExchange_vendor code (POwn text) (default ∅ meta) cause.
Proof.
  intros Hown. unfold OpenExchange.OpenExchangeError, Runtime.get. rewrite Hown.
  change (Runtime.truthy (POwn text)) with (JsString.truthy text).
  rewrite (own_truthy OpenExchange.OpenExchangeErrorCodes code text);
    [| by vm_compute | exact Hown].
  cbn [negb]. cbv iota beta. by rewrite Hown.
Qed.

(** A code for which the table lookup yields [undefined] is replaced by
    [UNKNOWN_ERROR], and the requested code is kept under [originalCode]. *)
Lemma error_constructor_unknown_code (code : string)
    (meta : option (gmap string JSON)) (cause : option Exception) :
  (Runtime.get Surepass.SurepassErrorCodes code = PUndefined ->
   Surepass.SurepassError code meta cause =
     DomainError Surepass_vendor "UNKNOWN_ERROR"
       (POwn "An unknown error occurred in Surepass.")
       (<["originalCode" := JStr code]> (default ∅ meta)) cause)
  /\ (Runtime.get OpenExchange.OpenExchangeErrorCodes code = PUndefined ->
      OpenExchange.OpenExchangeError code meta cause =
        DomainError OpenExchange_vendor "UNKNOWN_ERROR"
          (POwn "An unknown error occurred in Open Exchange.")
          (<["originalCode" := JStr code]> (default ∅ meta)) cause).
Proof.
  split; intros Hget.
  - unfold Surepass.SurepassError. rewrite Hget. reflexivity.
  - unfold OpenExchange.OpenExchangeError. rewrite Hget. reflexivity.
Qed.

(** C6, at a code that is not a key of either table but names a member
    every object literal inherits: the lookup [table['constructor']] is
    truthy, so neither constructor falls back to [UNKNOWN_ERROR] and neither
    records [originalCode]; what is passed on as the message is the
    inherited member, not a text of the table. *)
Theorem error_constructor_inherited_key :
  Runtime.own Surepass.SurepassErrorCodes "constructor" = None
  /\ Runtime.own OpenExchange.OpenExchangeErrorCodes "constructor" = None
  /\ Surepass.SurepassError "constructor" None None =
       DomainError Surepass_vendor "constructor" (PInherited "constructor") ∅ None
  /\ OpenExchange.OpenExchangeError "constructor" None None =
       DomainError OpenExchange_vendor "constructor" (PInherited "constructor")
         ∅ None
  /\ (∅ : gmap string JSON) !! "originalCode" = None.
Proof. repeat split. Qed.

(** ** Schemas *)

Lemma validate_schema_unfold {JS : JsString.Prototype}
    (fields : list (string * Guardian.Guard))
    (o : list (string * JSON)) :
  Guardian.validate (Guardian.GSchema fields) (JObj o) =
    match validate_fields o fields with
    | inr validated => inr (JObj validated)
    | inl e => inl e
    end.
Proof. reflexivity. Qed.

Lemma validate_schema_object {JS : JsString.Prototype}
    (fields : list (string * Guardian.Guard))
    (v r : JSON) :
  Guardian.validate (Guardian.GSchema fields) v = inr r ->
  (exists o, v = JObj o) /\ (exists o', r = JObj o').
Proof.
  destruct v as [| | | | | |o]; try discriminate.
  rewrite validate_schema_unfold.
  destruct (validate_fields o fields) as [e|validated]; [discriminate|].
  intros [= <-]. eauto.
Qed.

(** One failing field fails the whole object. *)
Lemma validate_fields_failure {JS : JsString.Prototype}
    (o : list (string * JSON))
    (fields : list (string * Guardian.Guard)) (k : string)
    (g : Guardian.Guard) (e : Guardian.GuardianError) :
  In (k, g) fields ->
  Guardian.validate g (Js.field o k) = inl e ->
  exists err, validate_fields o fields = inl err.
Proof.
  induction fields as [|[k' g'] fields IH]; [done|].
  intros [[= -> ->]|Hin] Hfail; simpl.
  - rewrite Hfail. destruct (validate_fields o fields); simpl; eauto.
  - destruct (IH Hin Hfail) as [err ->].
    destruct (Guardian.validate g' (Js.field o k')); simpl; eauto.
Qed.

Lemma field_add_field (k k' : string) (v : JSON) (acc : list (string * JSON)) :
  Js.field (Guardian.add_field k v acc) k' =
    if String.eqb k k' then
      match v with JUndefined => Js.field acc k' | _ => v end
    else Js.field acc k'.
Proof.
  destruct v; simpl; destruct (String.eqb k k'); reflexivity.
Qed.

Lemma optional_present {JS : JsString.Prototype}
    (g : Guardian.Guard) (v r : JSON) :
  (forall x y, Guardian.validate g x = inr y -> y = x) ->
  Guardian.validate (Guardian.GOptional g) v = inr r ->
  r = present v.
Proof.
  intros Hid Hvalid.
  destruct v; simpl in Hvalid; try (by injection Hvalid);
    by apply Hid in Hvalid.
Qed.

Lemma number_id {JS : JsString.Prototype}
    (rules : list Guardian.NumberRule) (x y : JSON) :
  Guardian.validate (Guardian.GNumber rules) x = inr y -> y = x.
Proof.
  destruct x; simpl; try discriminate.
  destruct (forallb _ rules); [by intros [= <-]|discriminate].
Qed.

Lemma boolean_id {JS : JsString.Prototype} (equals : option bool) (x y : JSON) :
  Guardian.validate (Guardian.GBoolean equals) x = inr y -> y = x.
Proof.
  destruct x, equals as [e|]; simpl; try discriminate.
  - destruct (Bool.eqb b e); [by intros [= <-]|discriminate].
  - by intros [= <-].
Qed.

Lemma string_id {JS : JsString.Prototype} (rules : list Guardian.StringRule) :
  forallb (fun r => match r with Guardian.upperCase => false | _ => true end)
    rules = true ->
  forall x y, Guardian.validate (Guardian.GString rules) x = inr y -> y = x.
Proof.
  intros Hrules x y. destruct x; simpl; try discriminate.
  induction rules as [|r rules IH]; simpl; [by intros [= <-]|].
  simpl in Hrules. apply andb_prop in Hrules as [Hr Hrules].
  destruct r; try discriminate;
    match goal with |- context [if ?b then _ else _] => destruct b end;
    try discriminate; by apply IH.
Qed.

Lemma object_id {JS : JsString.Prototype} (x y : JSON) :
  Guardian.validate Guardian.GObject x = inr y -> y = x.
Proof. destruct x; simpl; try discriminate. by intros [= <-]. Qed.

(** The validated envelope carries the fields of the body. *)
Lemma Surepass_envelope {JS : JsString.Prototype} (body respObj : JSON) :
  Guardian.validate Surepass.SurepassResponseSchema body = inr respObj ->
  Js.prop respObj "status_code" = present (Js.prop body "status_code")
  /\ Js.prop respObj "success" = present (Js.prop body "success")
  /\ Js.prop respObj "message" = present (Js.prop body "message")
  /\ Js.prop respObj "data" = present (Js.prop body "data").
Proof.
  destruct body as [| | | | | |o]; try discriminate.
  unfold Surepass.SurepassResponseSchema. rewrite validate_schema_unfold.
  cbn [validate_fields].
  destruct (Guardian.validate _ (Js.field o "status_code")) as [?|v1] eqn:H1;
  destruct (Guardian.validate _ (Js.field o "success")) as [?|v2] eqn:H2;
  destruct (Guardian.validate _ (Js.field o "message")) as [?|v3] eqn:H3;
  destruct (Guardian.validate _ (Js.field o "message_code")) as [?|v4] eqn:H4;
  destruct (Guardian.validate _ (Js.field o "data")) as [?|v5] eqn:H5;
    try discriminate.
  intros [= <-].
  apply optional_present in H1; [|apply number_id].
  apply optional_present in H2; [|apply boolean_id].
  apply optional_present in H3; [|by apply string_id].
  apply optional_present in H5; [|apply object_id].
  subst v1 v2 v3 v5. cbn [Js.prop Guardian.combine].
  rewrite !field_add_field. cbn [String.eqb Ascii.eqb Bool.eqb]. simpl Js.field.
  repeat split;
    match goal with |- match ?x with _ => _ end = _ => by destruct x end.
Qed.


(** The validated error body carries the message of the body. *)
Lemma OpenExchange_error_body {JS : JsString.Prototype} (body errBody : JSON) :
  Guardian.validate OpenExchange.ErrorSchemaObject body = inr errBody ->
  Js.prop errBody "message" = Js.prop body "message".
Proof.
  destruct body as [| | | | | |o]; try discriminate.
  unfold OpenExchange.ErrorSchemaObject. rewrite validate_schema_unfold.
  cbn [validate_fields].
  destruct (Guardian.validate _ (Js.field o "error")) as [?|v1] eqn:H1;
  destruct (Guardian.validate _ (Js.field o "status")) as [?|v2] eqn:H2;
  destruct (Guardian.validate _ (Js.field o "message")) as [?|v3] eqn:H3;
  destruct (Guardian.validate _ (Js.field o "description")) as [?|v4] eqn:H4;
    try discriminate.
  intros [= <-].
  apply string_id in H3; [|reflexivity]. subst v3.
  cbn [Js.prop Guardian.combine].
  rewrite !field_add_field. cbn [String.eqb Ascii.eqb Bool.eqb]. simpl Js.field.
  by destruct (Js.field o "message").
Qed.

Lemma num_is_present (v : JSON) (k : Z) :
  Js.num_is (present v) k = Js.num_is v k.
Proof. by destruct v. Qed.

(** ** Response handling *)

Lemma error_status_not_200 (status : Z) :
  OpenExchange.error_status status = true -> (status =? 200) = false.
Proof.
  unfold OpenExchange.error_status. intros Hstatus.
  destruct (status =? 200) eqn:H200; [|done].
  apply Z.eqb_eq in H200. subst status. discriminate.
Qed.

Lemma checkAPIResponse_validated {JS : JsString.Prototype}
    (resp : Surepass.RESTlerResponse)
    (validator : option Guardian.Validator) (respObj : JSON) :
  Guardian.validate Surepass.SurepassResponseSchema (Surepass.body resp) =
    inr respObj ->
  Surepass.__checkAPIResponse resp validator =
    if match Js.prop respObj "success" with JBool false => true | _ => false end
    then
      let status_code := Js.prop respObj "status_code" in
      let code :=
        if Js.num_is status_code 500 then "SERVICE_UNAVAILABLE"
        else if Js.num_is status_code 422 then "VERIFICATION_FAILED"
        else if Js.num_is status_code 401 then "INVALID_TOKEN"
        else if Js.num_is status_code 429 then "RATE_LIMIT_EXCEEDED"
        else "UNKNOWN_RESPONSE_ERROR" in
      Throw (Surepass.SurepassError code
               (Some {[ "statusCode" := Js.prop (Surepass.body resp) "status_code";
                        "message" := Js.prop respObj "message";
                        "details" := Js.prop respObj "data" ]}) None)
    else
      match validator with
      | Some validator =>
          match validator (Js.prop respObj "data") with
          | inl validationError =>
              Throw (Surepass.SurepassError "PARSE_ERROR"
                       (Some {[ "details" := Guardian.listCauses validationError ]})
                       None)
          | inr validatedData => Return validatedData
          end
      | None => Return (Js.prop respObj "data")
      end.
Proof.
  intros Hvalid. unfold Surepass.__checkAPIResponse. rewrite Hvalid.
  apply validate_schema_object in Hvalid as [_ [o' ->]]. reflexivity.
Qed.

(** C2: the status switch of [__checkAPIResponse] and the message switch of
    [__handle] implement the fixed mapping tables.  For a body that passes
    the Surepass response schema and has [success] false, a [status_code]
    of the table yields exactly the mapped code and any other status code
    yields [UNKNOWN_RESPONSE_ERROR]; for an OpenExchange response with one
    of the error statuses whose body passes the error schema, a [message]
    of the table yields exactly the mapped code. *)
Theorem status_mapping_tables {JS : JsString.Prototype} :
  (forall resp validator respObj,
     Guardian.validate Surepass.SurepassResponseSchema (Surepass.body resp) =
       inr respObj ->
     Js.prop (Surepass.body resp) "success" = JBool false ->
     (forall k code,
        In (k, code) Surepass_status_mapping ->
        Js.num_is (Js.prop (Surepass.body resp) "status_code") k = true ->
        throws_code Surepass_vendor Surepass.SurepassErrorCodes code
          (Surepass.__checkAPIResponse resp validator))
     /\ ((forall k code,
            In (k, code) Surepass_status_mapping ->
            Js.num_is (Js.prop (Surepass.body resp) "status_code") k = false) ->
         throws_code Surepass_vendor Surepass.SurepassErrorCodes
           "UNKNOWN_RESPONSE_ERROR"
           (Surepass.__checkAPIResponse resp validator)))
  /\ (forall resp guard errBody m code,
        OpenExchange.error_status (OpenExchange.status resp) = true ->
        Guardian.validate OpenExchange.ErrorSchemaObject (OpenExchange.body resp) =
          inr errBody ->
        In (m, code) OpenExchange_message_mapping ->
        Js.prop (OpenExchange.body resp) "message" = JStr m ->
        throws_code OpenExchange_vendor OpenExchange.OpenExchangeErrorCodes code
          (OpenExchange.__handle resp guard)).
Proof.
  split.
  - intros resp validator respObj Hvalid Hsuccess.
    rewrite (checkAPIResponse_validated resp validator respObj Hvalid).
    destruct (Surepass_envelope _ _ Hvalid) as (Hcode & Hflag & _).
    rewrite Hflag, Hsuccess, Hcode. cbn [present]. cbv zeta.
    rewrite !num_is_present.
    set (status_code := Js.prop (Surepass.body resp) "status_code"). split.
    + intros k code Hin Hnum. simpl in Hin.
      assert (forall k', k' <> k -> Js.num_is status_code k' = false) as Hother.
      { intros k' Hne. unfold Js.num_is in *.
        destruct status_code; try done.
        apply Qeq_bool_iff in Hnum.
        destruct (Qeq_bool q (inject_Z k')) eqn:Hq; [|done].
        apply Qeq_bool_iff in Hq. rewrite Hnum in Hq.
        unfold Qeq in Hq. simpl in Hq. lia. }
      destruct Hin as [[= <- <-]|[[= <- <-]|[[= <- <-]|[[= <- <-]|[]]]]];
        rewrite ?Hnum, ?Hother by lia;
        eexists _, _; (split; [|apply f_equal, SurepassError_known]); reflexivity.
    + intros Hnone.
      rewrite (Hnone 500 "SERVICE_UNAVAILABLE"), (Hnone 422 "VERIFICATION_FAILED"),
        (Hnone 401 "INVALID_TOKEN"), (Hnone 429 "RATE_LIMIT_EXCEEDED")
        by (simpl; auto).
      eexists _, _; (split; [|apply f_equal, SurepassError_known]); reflexivity.
  - intros resp guard errBody m code Hstatus Hvalid Hin Hmessage.
    unfold OpenExchange.__handle.
    rewrite (error_status_not_200 _ Hstatus), Hstatus, Hvalid. cbv zeta.
    rewrite (OpenExchange_error_body _ _ Hvalid), Hmessage.
    simpl in Hin.
    destruct Hin as [[= <- <-]|[[= <- <-]|[[= <- <-]|[[= <- <-]|[[= <- <-]|[]]]]]];
      simpl;
      eexists _, _; (split; [|apply f_equal, OpenExchangeError_known]); reflexivity.
Qed.

(** The 401 envelope of the specification's second scenario and the 401
    error body of the OpenExchange tests. *)
Lemma status_mapping_tables_witness :
  throws_code Surepass_vendor Surepass.SurepassErrorCodes "INVALID_TOKEN"
    (Surepass.__checkAPIResponse
       (Surepass.mkResponse 401
          (JObj [ ("status_code", JNum 401); ("success", JBool false);
                  ("message", JStr "Invalid token") ]))
       (Some (Guardian.validate Surepass.SurepassNameMatchSchema)))
  /\ throws_code OpenExchange_vendor OpenExchange.OpenExchangeErrorCodes
       "INVALID_APP_ID"
       (OpenExchange.__handle
          (OpenExchange.mkResponse 401
             (JObj [ ("error", JBool true); ("status", JNum 401);
                     ("message", JStr "invalid_app_id");
                     ("description", JStr "Invalid application ID provided") ]))
          (Guardian.validate OpenExchange.LatestRatesSchemaObject)).
Proof.
  destruct status_mapping_tables as [Hsurepass Hopenexchange]. split.
  - eapply Hsurepass with (k := 401).
    + reflexivity.
    + reflexivity.
    + simpl. auto.
    + reflexivity.
  - eapply Hopenexchange with (m := "invalid_app_id").
    + reflexivity.
    + reflexivity.
    + simpl. auto.
    + reflexivity.
Defined.

(** On an error status [__handle] throws an [OpenExchangeError] whatever the
    body and the guard are. *)
Lemma handle_error_status {JS : JsString.Prototype}
    (resp : OpenExchange.RESTlerResponse)
    (guard : Guardian.Validator) :
  OpenExchange.error_status (OpenExchange.status resp) = true ->
  exists code,
    throws_code OpenExchange_vendor OpenExchange.OpenExchangeErrorCodes code
      (OpenExchange.__handle resp guard).
Proof.
  intros Hstatus. unfold OpenExchange.__handle, throws_code.
  rewrite (error_status_not_200 _ Hstatus), Hstatus. cbv zeta.
  destruct (Guardian.validate OpenExchange.ErrorSchemaObject
              (OpenExchange.body resp)) as [err|errBody].
  - eexists _, _, _. split; [|apply f_equal, OpenExchangeError_known];
      reflexivity.
  - repeat match goal with
           | |- context [if ?b then _ else _] => destruct b
           end;
      eexists _, _, _; (split; [|apply f_equal, OpenExchangeError_known]);
      reflexivity.
Qed.

(** On a status that is neither 200 nor an error status the outcome is the
    guard's verdict on the body. *)
Lemma handle_unknown_status {JS : JsString.Prototype}
    (resp : OpenExchange.RESTlerResponse)
    (guard : Guardian.Validator) :
  OpenExchange.status resp <> 200 ->
  OpenExchange.error_status (OpenExchange.status resp) = false ->
  match guard (OpenExchange.body resp) with
  | inr validated => OpenExchange.__handle resp guard = Return validated
  | inl _ =>
      throws_code OpenExchange_vendor OpenExchange.OpenExchangeErrorCodes
        "SERVICE_UNAVAILABLE" (OpenExchange.__handle resp guard)
  end.
Proof.
  intros H200 Hstatus. unfold OpenExchange.__handle, throws_code.
  apply Z.eqb_neq in H200. rewrite H200, Hstatus. cbv zeta.
  destruct (guard (OpenExchange.body resp)) as [err|validated]; [|reflexivity].
  eexists _, _. split; [|apply f_equal, OpenExchangeError_known]; reflexivity.
Qed.

Lemma checkAPIResponse_failure_flag {JS : JsString.Prototype}
    (resp : Surepass.RESTlerResponse)
    (validator : option Guardian.Validator) (respObj : JSON) :
  Guardian.validate Surepass.SurepassResponseSchema (Surepass.body resp) =
    inr respObj ->
  Js.prop (Surepass.body resp) "success" = JBool false ->
  exists code,
    throws_code Surepass_vendor Surepass.SurepassErrorCodes code
      (Surepass.__checkAPIResponse resp validator).
Proof.
  intros Hvalid Hsuccess.
  rewrite (checkAPIResponse_validated resp validator respObj Hvalid).
  destruct (Surepass_envelope _ _ Hvalid) as (_ & -> & _).
  rewrite Hsuccess. cbn [present]. cbv zeta. unfold throws_code.
  repeat match goal with
         | |- context [if ?b then _ else _] => destruct b
         end;
    eexists _, _, _; (split; [|apply f_equal, SurepassError_known]);
    reflexivity.
Qed.

(** C1, against the claim as stated: with status 250, and with status 500,
    a body that passes the guard is returned, nothing is thrown. *)
Lemma unknown_status_returns_body :
  OpenExchange.__handle (OpenExchange.mkResponse 250 mockLatestRatesResponse)
    (Guardian.validate OpenExchange.LatestRatesSchemaObject) =
    Return mockLatestRatesResponse
  /\ OpenExchange.__handle (OpenExchange.mkResponse 500 mockLatestRatesResponse)
       (Guardian.validate OpenExchange.LatestRatesSchemaObject) =
       Return mockLatestRatesResponse
  /\ ~ (exists e,
          OpenExchange.__handle
            (OpenExchange.mkResponse 500 mockLatestRatesResponse)
            (Guardian.validate OpenExchange.LatestRatesSchemaObject) = Throw e).
Proof.
  assert (OpenExchange.__handle
            (OpenExchange.mkResponse 500 mockLatestRatesResponse)
            (Guardian.validate OpenExchange.LatestRatesSchemaObject) =
            Return mockLatestRatesResponse) as H500 by (vm_compute; reflexivity).
  split; [vm_compute; reflexivity|]. split; [exact H500|].
  intros [e He]. rewrite H500 in He. discriminate.
Qed.

Lemma throws_code_raised {A : Type} (variableReplacer : VariableReplacer)
    (vendor : Vendor) (table : list (string * string)) (code : string)
    (c : Completion A) :
  throws_code vendor table code c ->
  raises_code variableReplacer vendor table code (raised variableReplacer c).
Proof.
  intros (text & context & Hown & ->). exists text, context.
  split; [exact Hown|]. simpl.
  by destruct (variableReplacer (template_of vendor) (POwn text) context).
Qed.

(** Under a base class that constructs every error the caller receives
    the error the handler describes. *)
Lemma raised_constructed {A : Type} (variableReplacer : VariableReplacer)
    (c : Completion A) :
  (forall template message context,
     variableReplacer template message context = None) ->
  raised variableReplacer c = c.
Proof.
  intros Hconstructs. destruct c as [a|[vendor code message context cause| |]];
    simpl; try reflexivity.
  by rewrite Hconstructs.
Qed.

Lemma raised_returns {A : Type} (variableReplacer : VariableReplacer)
    (c : Completion A) (a : A) :
  raised variableReplacer c = Return a <-> c = Return a.
Proof. destruct c; simpl; split; congruence. Qed.

(** C1, amended, for every behaviour of the base class.  On a known error
    status (400, 401, 403, 404, 429) [OpenExchange.__handle] never returns:
    it ends in [throw new OpenExchangeError(code, ...)] for a code of the
    table, and so does [Surepass.__checkAPIResponse] with
    [throw new SurepassError(code, ...)] on a validated envelope with
    [success === false].  On any other status than 200 [__handle] returns
    the body exactly when it passes the guard, and throws when it does
    not. *)
Theorem non_success_status_outcomes {JS : JsString.Prototype}
    (variableReplacer : VariableReplacer) :
  (forall resp guard,
     OpenExchange.error_status (OpenExchange.status resp) = true ->
     exists code,
       raises_code variableReplacer OpenExchange_vendor
         OpenExchange.OpenExchangeErrorCodes code
         (raised variableReplacer (OpenExchange.__handle resp guard)))
  /\ (forall resp validator respObj,
        Guardian.validate Surepass.SurepassResponseSchema (Surepass.body resp) =
          inr respObj ->
        Js.prop (Surepass.body resp) "success" = JBool false ->
        exists code,
          raises_code variableReplacer Surepass_vendor
            Surepass.SurepassErrorCodes code
            (raised variableReplacer
               (Surepass.__checkAPIResponse resp validator)))
  /\ (forall resp guard,
        OpenExchange.status resp <> 200 ->
        OpenExchange.error_status (OpenExchange.status resp) = false ->
        match guard (OpenExchange.body resp) with
        | inr validated =>
            raised variableReplacer (OpenExchange.__handle resp guard) =
              Return validated
        | inl _ =>
            exists e,
              raised variableReplacer (OpenExchange.__handle resp guard) =
                Throw e
        end).
Proof.
  split; [|split].
  - intros resp guard Hstatus.
    destruct (handle_error_status resp guard Hstatus) as [code Hcode].
    exists code. by apply throws_code_raised.
  - intros resp validator respObj Hvalid Hsuccess.
    destruct (checkAPIResponse_failure_flag resp validator respObj Hvalid
                Hsuccess) as [code Hcode].
    exists code. by apply throws_code_raised.
  - intros resp guard H200 Hstatus.
    pose proof (handle_unknown_status resp guard H200 Hstatus) as Hunknown.
    destruct (guard (OpenExchange.body resp)) as [err|validated].
    + destruct Hunknown as (text & context & _ & ->). simpl. eauto.
    + by rewrite Hunknown.
Qed.

(** A 403 with an unreadable body and the Surepass 401 envelope, under a
    base class that constructs every error; the status 500 and the body of
    the repository's test of unknown status codes, which fails the guard,
    under a base class that fails on the [SERVICE_UNAVAILABLE] message with
    the text that test records. *)
Lemma non_success_status_outcomes_witness :
  let constructs : VariableReplacer := fun _ _ _ => None in
  let fails : VariableReplacer := fun _ message _ =>
    match message with
    | POwn "Open Exchange service is currently unavailable." =>
        Some "Circular reference detected during variable replacement"
    | _ => None
    end in
  (exists code,
     raises_code constructs OpenExchange_vendor
       OpenExchange.OpenExchangeErrorCodes code
       (raised constructs
          (OpenExchange.__handle
             (OpenExchange.mkResponse 403 (JStr "invalid json string"))
             (Guardian.validate OpenExchange.LatestRatesSchemaObject))))
  /\ (exists code,
        raises_code constructs Surepass_vendor Surepass.SurepassErrorCodes code
          (raised constructs
             (Surepass.__checkAPIResponse
                (Surepass.mkResponse 401
                   (JObj [ ("status_code", JNum 401); ("success", JBool false);
                           ("message", JStr "Invalid token") ]))
                None)))
  /\ raised fails
       (OpenExchange.__handle
          (OpenExchange.mkResponse 500
             (JObj [("error", JStr "Internal server error")]))
          (Guardian.validate OpenExchange.LatestRatesSchemaObject)) =
       Throw (JsError "Circular reference detected during variable replacement").
Proof.
  intros constructs fails. split; [|split].
  - destruct (non_success_status_outcomes constructs) as (Herror & _ & _).
    apply Herror. reflexivity.
  - destruct (non_success_status_outcomes constructs) as (_ & Hsurepass & _).
    eapply Hsurepass; reflexivity.
  - destruct (non_success_status_outcomes fails) as (_ & _ & Hunknown).
    specialize (Hunknown
                  (OpenExchange.mkResponse 500
                     (JObj [("error", JStr "Internal server error")]))
                  (Guardian.validate OpenExchange.LatestRatesSchemaObject)).
    simpl in Hunknown. destruct Hunknown as [e He]; [discriminate|reflexivity|].
    rewrite He. vm_compute in He. by injection He as <-.
Defined.

(** [__handle] has exactly the two outcomes for every response, and
    [__checkAPIResponse] has them for every body other than [null] and
    [undefined]. *)
Lemma response_handling_two_outcomes {JS : JsString.Prototype} :
  (forall resp guard,
     (exists validated, OpenExchange.__handle resp guard = Return validated)
     \/ (exists code,
           throws_code OpenExchange_vendor OpenExchange.OpenExchangeErrorCodes
             code (OpenExchange.__handle resp guard)))
  /\ (forall resp validator,
        Surepass.body resp <> JNull ->
        Surepass.body resp <> JUndefined ->
        (exists validated,
           Surepass.__checkAPIResponse resp (Some validator) = Return validated)
        \/ (exists code,
              throws_code Surepass_vendor Surepass.SurepassErrorCodes code
                (Surepass.__checkAPIResponse resp (Some validator)))).
Proof.
  split.
  - intros resp guard.
    destruct (OpenExchange.error_status (OpenExchange.status resp)) eqn:Herr.
    { right. by apply handle_error_status. }
    destruct (Z.eq_dec (OpenExchange.status resp) 200) as [H200|H200].
    + unfold OpenExchange.__handle, throws_code. rewrite H200. simpl.
      destruct (guard (OpenExchange.body resp)) as [err|validated]; [|eauto].
      right. eexists _, _, _.
      split; [|apply f_equal, OpenExchangeError_known]; reflexivity.
    + pose proof (handle_unknown_status resp guard H200 Herr) as Hunknown.
      destruct (guard (OpenExchange.body resp)); eauto.
  - intros resp validator Hnull Hundefined.
    destruct (Guardian.validate Surepass.SurepassResponseSchema
                (Surepass.body resp)) as [err|respObj] eqn:Hvalid.
    + right. unfold Surepass.__checkAPIResponse, throws_code. rewrite Hvalid.
      destruct (Surepass.body resp); try done;
        eexists _, _, _; (split; [|apply f_equal, SurepassError_known]);
        reflexivity.
    + rewrite (checkAPIResponse_validated resp _ respObj Hvalid).
      destruct (Js.prop respObj "success") as [| |[|]| | | |] eqn:Hsuccess;
        try (destruct (validator (Js.prop respObj "data")); [right|eauto];
             eexists _, _, _; (split; [|apply f_equal, SurepassError_known]);
             reflexivity).
      right. cbv zeta. unfold throws_code.
      repeat match goal with
             | |- context [if ?b then _ else _] => destruct b
             end;
        eexists _, _, _; (split; [|apply f_equal, SurepassError_known]);
        reflexivity.
Qed.

(** C5: a success-status body that fails its schema is rejected as a whole.
    [__handle] throws [RESPONSE_ERROR] when the guard rejects the body of a
    200 response, [__checkAPIResponse] throws [PARSE_ERROR] when the
    validator rejects the data of a validated envelope that is not flagged
    as a failure, and an object schema rejects an object as soon as one
    declared field is missing or fails its guard. *)
Theorem invalid_success_body_rejected {JS : JsString.Prototype} :
  (forall resp guard err,
     OpenExchange.status resp = 200 ->
     guard (OpenExchange.body resp) = inl err ->
     throws_code OpenExchange_vendor OpenExchange.OpenExchangeErrorCodes
       "RESPONSE_ERROR" (OpenExchange.__handle resp guard))
  /\ (forall resp validator respObj err,
        Guardian.validate Surepass.SurepassResponseSchema (Surepass.body resp) =
          inr respObj ->
        Js.prop (Surepass.body resp) "success" <> JBool false ->
        validator (present (Js.prop (Surepass.body resp) "data")) = inl err ->
        throws_code Surepass_vendor Surepass.SurepassErrorCodes "PARSE_ERROR"
          (Surepass.__checkAPIResponse resp (Some validator)))
  /\ (forall fields o k g e,
        In (k, g) fields ->
        Guardian.validate g (Js.field o k) = inl e ->
        exists err,
          Guardian.validate (Guardian.GSchema fields) (JObj o) = inl err).
Proof.
  split; [|split].
  - intros resp guard err H200 Hguard.
    unfold OpenExchange.__handle, throws_code. rewrite H200, Hguard. simpl.
    eexists _, _. split; [|apply f_equal, OpenExchangeError_known]; reflexivity.
  - intros resp validator respObj err Hvalid Hsuccess Hdata.
    rewrite (checkAPIResponse_validated resp _ respObj Hvalid).
    destruct (Surepass_envelope _ _ Hvalid) as (_ & -> & _ & ->).
    rewrite Hdata. unfold throws_code.
    destruct (Js.prop (Surepass.body resp) "success") as [| |[|]| | | |];
      try done;
      eexists _, _; (split; [|apply f_equal, SurepassError_known]);
      reflexivity.
  - intros fields o k g e Hin Hfail. rewrite validate_schema_unfold.
    destruct (validate_fields_failure o fields k g e Hin Hfail) as [err ->].
    eauto.
Qed.

(** The 200 response with an unexpected body of the OpenExchange tests, the
    specification's third scenario against the name-match schema, and a
    name-match object without [match_score]. *)
Lemma invalid_success_body_rejected_witness :
  throws_code OpenExchange_vendor OpenExchange.OpenExchangeErrorCodes
    "RESPONSE_ERROR"
    (OpenExchange.__handle
       (OpenExchange.mkResponse 200 (JObj [("invalid", JStr "response")]))
       (Guardian.validate OpenExchange.LatestRatesSchemaObject))
  /\ throws_code Surepass_vendor Surepass.SurepassErrorCodes "PARSE_ERROR"
       (Surepass.__checkAPIResponse
          (Surepass.mkResponse 200
             (JObj [ ("status_code", JNum 200); ("success", JBool true);
                     ("message", JStr "Success");
                     ("data", JObj [("invalid_field", JStr "invalid_value")]) ]))
          (Some (Guardian.validate Surepass.SurepassNameMatchSchema)))
  /\ (exists err,
        Guardian.validate Surepass.SurepassNameMatchSchema
          (JObj [ ("client_id", JStr "c1"); ("name_1", JStr "John Doe");
                  ("name_2", JStr "john doe"); ("match_status", JBool true) ]) =
          inl err).
Proof.
  destruct invalid_success_body_rejected as (Hhandle & Hcheck & Hschema).
  split; [|split].
  - eapply Hhandle; reflexivity.
  - eapply Hcheck; [vm_compute; reflexivity|discriminate|vm_compute; reflexivity].
  - eapply (Hschema _ _ "match_score" (Guardian.GNumber []));
      [simpl; auto|reflexivity].
Defined.

(** ** Failures at the public operations *)

Lemma on_failure_surfaced (endpoint : string) (failure : Exception) :
  Surepass.on_failure endpoint failure = Throw (surfaced endpoint failure).
Proof.
  destruct failure as [[|] code message context cause|m|m]; simpl;
    try reflexivity;
    apply f_equal, SurepassError_known; reflexivity.
Qed.

Lemma surfaced_typed (endpoint : string) (failure : Exception) :
  typed_failure endpoint (Throw (surfaced endpoint failure)).
Proof.
  destruct failure as [[|] code message context cause|m|m]; simpl;
    eexists _, _, _, _; (split; [reflexivity|]);
    by simplify_map_eq.
Qed.

Lemma operation_typed {JS : JsString.Prototype}
    (_makeRequest : Surepass.Transport) (endpoint : string)
    (payload : list (string * JSON)) (schema : Guardian.Validator) :
  typed_failure endpoint
    (Surepass.operation _makeRequest endpoint payload schema).
Proof.
  unfold Surepass.operation, Runtime.try_catch, Runtime.bind.
  destruct (_makeRequest _) as [resp|failure].
  - destruct (Surepass.__checkAPIResponse resp (Some schema)) as [v|failure];
      [exact I|].
    rewrite on_failure_surfaced. apply surfaced_typed.
  - rewrite on_failure_surfaced. apply surfaced_typed.
Qed.

Lemma operation_surfaces {JS : JsString.Prototype}
    (_makeRequest : Surepass.Transport) (endpoint : string)
    (payload : list (string * JSON)) (schema : Guardian.Validator)
    (failure : Exception) :
  arises _makeRequest endpoint payload schema failure ->
  Surepass.operation _makeRequest endpoint payload schema =
    Throw (surfaced endpoint failure).
Proof.
  unfold arises, Surepass.operation, Runtime.try_catch, Runtime.bind.
  intros [Htransport|(resp & Htransport & Hcheck)]; rewrite Htransport.
  - apply on_failure_surfaced.
  - rewrite Hcheck. apply on_failure_surfaced.
Qed.

(** The Surepass client catches at every operation: whatever one of its
    seven operations throws is a [SurepassError] construction whose context
    names the endpoint, and a failure that arises during the operation is
    surfaced with the endpoint added, or as the cause of an
    [UNHANDLED_ERROR]. *)
Lemma Surepass_failure_wrapped {JS : JsString.Prototype} :
  (forall _makeRequest bank pan initiate fetch company gstin a b flag
          endpoint result,
     In (endpoint, result)
        (Surepass_calls _makeRequest bank pan initiate fetch company gstin
           a b flag) ->
     typed_failure endpoint result)
  /\ (forall _makeRequest endpoint payload schema failure,
        arises _makeRequest endpoint payload schema failure ->
        Surepass.operation _makeRequest endpoint payload schema =
          Throw (surfaced endpoint failure)).
Proof.
  split.
  - intros tr bank pan initiate fetch company gstin a b flag endpoint result Hin.
    simpl in Hin.
    repeat (destruct Hin as [[= <- <-]|Hin]; [apply operation_typed|]).
    destruct Hin.
  - apply operation_surfaces.
Qed.

(** C3, at the OpenExchange client: none of its seven operations has a
    [catch] around [_makeRequest], so a failure thrown by the transport
    reaches the caller as it is.  A transport that fails with a plain
    [Error] makes the operation fail with that [Error], not with an
    [OpenExchangeError], and no endpoint is recorded anywhere. *)
Theorem transport_failure_unwrapped {JS : JsString.Prototype}
    (baseCurrency : option string) (_makeRequest : OpenExchange.Transport)
    (Number_toString : Q -> string)
    (usage currencies historical series conversion ohlc : Guardian.Validator)
    (a b : string) (amount : Q) (date : option string)
    (options : option OpenExchange.RatesOptions)
    (request : OpenExchange.RESTlerEndpoint) (result : Completion JSON)
    (failure : Exception) :
  In (request, result)
     (OpenExchange_calls baseCurrency _makeRequest Number_toString usage
        currencies historical series conversion ohlc a b amount date options) ->
  _makeRequest request = Throw failure ->
  result = Throw failure.
Proof.
  intros Hin Hfail. simpl in Hin.
  repeat (destruct Hin as [[= <- <-]|Hin];
          [unfold OpenExchange.getStatus, OpenExchange.listCurrencies,
             OpenExchange.getRates, OpenExchange.getHistoricalRates,
             OpenExchange.getTimeSeries, OpenExchange.convert,
             OpenExchange.getOHLC;
           by rewrite Hfail|]).
  destruct Hin.
Qed.

(** [getRates()] on a client whose transport fails with
    [new Error('Network error')]: the caller receives that [Error], which
    is not an error of the client's class. *)
Lemma transport_failure_unwrapped_witness :
  let network : OpenExchange.Transport :=
    fun _ => Throw (JsError "Network error") in
  OpenExchange.getRates None network None = Throw (JsError "Network error")
  /\ forall code message context cause,
       JsError "Network error" <>
         DomainError OpenExchange_vendor code message context cause.
Proof.
  intros network. split; [|discriminate].
  set (schema := Guardian.validate OpenExchange.LatestRatesSchemaObject).
  apply (transport_failure_unwrapped None network (fun _ => "100")
           schema schema schema schema schema schema "" "" 100%Q None None
           (OpenExchange.getRates_request None None)).
  - simpl. auto.
  - reflexivity.
Defined.

(** C4, at a response without a body: the envelope is rejected, and reading
    [resp.body!.status_code] for the metadata of the [RESPONSE_ERROR] throws
    a [TypeError] before any [SurepassError] is constructed.  At the public
    operation that [TypeError] is caught and wrapped, so the caller sees
    [UNHANDLED_ERROR] instead of [RESPONSE_ERROR]. *)
Theorem checkAPIResponse_null_body {JS : JsString.Prototype} (status : Z)
    (validator : option Guardian.Validator) (schema : Guardian.Validator)
    (pan : string) :
  Surepass.__checkAPIResponse (Surepass.mkResponse status JNull) validator =
    Throw (TypeError "Cannot read properties of null (reading 'status_code')")
  /\ Surepass.verifyPAN (fun _ => Return (Surepass.mkResponse status JNull))
       schema pan =
       Throw (DomainError Surepass_vendor "UNHANDLED_ERROR"
                (POwn "An unhandled error occurred.")
                {[ "endpoint" := JStr "pan/pan-comprehensive-plus" ]}
                (Some (TypeError
                         "Cannot read properties of null (reading 'status_code')"))).
Proof.
  split; [reflexivity|].
  unfold Surepass.verifyPAN, Surepass.operation, Runtime.try_catch, Runtime.bind.
  change (Surepass.__checkAPIResponse (Surepass.mkResponse status JNull)
            (Some schema))
    with (@Throw JSON
            (TypeError "Cannot read properties of null (reading 'status_code')")).
  apply on_failure_surfaced.
Qed.

(** * Further properties *)

(** ** Aptos *)

Lemma repeat_add (c : ascii) (a b : nat) :
  JsString.repeat c (a + b) = JsString.repeat c a +:+ JsString.repeat c b.
Proof.
  induction a as [|a IH]; [done|]. simpl. by rewrite append_String, IH.
Qed.

Lemma append_assoc (s t u : string) : (s +:+ t) +:+ u = s +:+ t +:+ u.
Proof.
  induction s as [|a s IH]; [done|]. by rewrite !append_String, IH.
Qed.

(** X1: zeros in front of the digits of a valid address do not change its
    normal form, as long as the address stays within 64 digits. *)
Theorem normalizeAddress_leading_zeros (n : nat) (h : string) :
  hex_body h ->
  (n + String.length h <= 64)%nat ->
  Aptos.normalizeAddress ("0x" +:+ JsString.repeat "0" n +:+ h) =
    Aptos.normalizeAddress ("0x" +:+ h).
Proof.
  intros Hh Hlen. destruct Hh as [[H1 H64] Hall].
  assert (hex_body (JsString.repeat "0" n +:+ h)) as Hpadded.
  { split.
    - rewrite length_app, length_repeat. lia.
    - rewrite forallb_app, Hall, forallb_repeat; done. }
  rewrite (normalizeAddress_valid _ Hpadded).
  rewrite (normalizeAddress_valid h) by (split; [lia|done]).
  rewrite length_app, length_repeat.
  replace (64 - String.length h)%nat
    with ((64 - (n + String.length h)) + n)%nat by lia.
  by rewrite repeat_add, append_assoc.
Qed.

Lemma normalizeAddress_leading_zeros_witness :
  Aptos.normalizeAddress "0x00a1" = Aptos.normalizeAddress "0xa1".
Proof.
  apply (normalizeAddress_leading_zeros 2 "a1").
  - split; [simpl; lia|reflexivity].
  - simpl. lia.
Defined.

(** X2: the [address] guard of the account schema accepts exactly the
    strings [isValidAddress] accepts, and hands them on unchanged. *)
Theorem account_address_guard_agrees (s : string) :
  (AptosClient.AptosAccount_address (JStr s) = inr (JStr s)
   <-> Aptos.isValidAddress s = true)
  /\ (forall r, AptosClient.AptosAccount_address (JStr s) = inr r -> r = JStr s).
Proof.
  unfold AptosClient.AptosAccount_address, Aptos.isValidAddress. cbv zeta.
  destruct (JsString.startsWith "0x" s) eqn:Hpre; cbv [negb].
  - rewrite (slice_startsWith "0x" s Hpre).
    set (digits := JsString.slice (String.length "0x") s).
    rewrite slice_0x.
    change (AptosClient.address_pattern_test ("0x" +:+ digits))
      with (Aptos.hexRegex_test digits).
    destruct (Aptos.hexRegex_test digits); [|by split; [split|]].
    rewrite length_app.
    change (String.length "0x" + String.length digits)%nat
      with (S (S (String.length digits))).
    destruct (64 <? String.length digits)%nat eqn:H64.
    + apply Nat.ltb_lt in H64.
      assert ((66 <? S (S (String.length digits)))%nat = true) as ->
        by (apply Nat.ltb_lt; lia).
      by split; [split|].
    + apply Nat.ltb_ge in H64.
      assert ((66 <? S (S (String.length digits)))%nat = false) as ->
        by (apply Nat.ltb_ge; lia).
      split; [by split|]. by intros r [= <-].
  - by split; [split|].
Qed.

(** X3: the constructor accepts exactly the three modes (an omitted mode is
    [MAINNET]) and throws [Error('Invalid mode: ...')] for every other one;
    [faucetURL] never throws on a constructed client, and it is [null]
    exactly on [MAINNET]. *)
Theorem faucetURL_after_constructor (mode : option string) :
  ((exists made, AptosClient.constructor mode = Return made)
   <-> In (default "MAINNET" mode) ["DEVNET"; "TESTNET"; "MAINNET"])
  /\ (~ In (default "MAINNET" mode) ["DEVNET"; "TESTNET"; "MAINNET"] ->
      AptosClient.constructor mode =
        Throw (JsError ("Invalid mode: " +:+ default "MAINNET" mode)))
  /\ (forall options kept,
        AptosClient.constructor mode = Return (options, kept) ->
        kept = default "MAINNET" mode
        /\ exists url,
             AptosClient.faucetURL kept = Return url
             /\ (url = None <-> kept = "MAINNET")).
Proof.
  unfold AptosClient.constructor. cbv zeta.
  set (m := default "MAINNET" mode).
  destruct (String.eqb m "DEVNET") eqn:Hdev;
    [|destruct (String.eqb m "TESTNET") eqn:Htest;
      [|destruct (String.eqb m "MAINNET") eqn:Hmain]].
  - apply String.eqb_eq in Hdev. rewrite Hdev. split; [|split].
    + split; [simpl; auto|eauto].
    + intros Hnot. exfalso. apply Hnot. simpl. auto.
    + intros options kept [= <- <-]. split; [done|].
      eexists. split; [reflexivity|]. split; discriminate.
  - apply String.eqb_eq in Htest. rewrite Htest. split; [|split].
    + split; [simpl; auto|eauto].
    + intros Hnot. exfalso. apply Hnot. simpl. auto.
    + intros options kept [= <- <-]. split; [done|].
      eexists. split; [reflexivity|]. split; discriminate.
  - apply String.eqb_eq in Hmain. rewrite Hmain. split; [|split].
    + split; [simpl; auto|eauto].
    + intros Hnot. exfalso. apply Hnot. simpl. auto.
    + intros options kept [= <- <-]. split; [done|].
      eexists. split; [reflexivity|]. split; done.
  - apply String.eqb_neq in Hdev, Htest, Hmain. split; [|split].
    + split; [intros [made Hmade]; discriminate|].
      simpl. intros [?|[?|[?|[]]]]; congruence.
    + reflexivity.
    + intros options kept Hmade. discriminate.
Qed.

(** [new Aptos()] and [new Aptos('INVALID')]. *)
Lemma faucetURL_after_constructor_witness :
  (exists options,
     AptosClient.constructor None = Return (options, "MAINNET")
     /\ AptosClient.faucetURL "MAINNET" = Return None)
  /\ AptosClient.constructor (Some "INVALID") =
       Throw (JsError "Invalid mode: INVALID").
Proof.
  split.
  - destruct (faucetURL_after_constructor None) as ([_ Hmade] & _ & Hfaucet).
    destruct Hmade as [[options kept] Hmade]; [simpl; auto|].
    destruct (Hfaucet options kept Hmade) as (-> & url & Hurl & Hnone).
    exists options. split; [exact Hmade|].
    change (default "MAINNET" None) with "MAINNET" in Hurl, Hnone.
    rewrite Hurl. f_equal. by apply Hnone.
  - destruct (faucetURL_after_constructor (Some "INVALID")) as (_ & Hthrow & _).
    apply Hthrow. simpl. intros [?|[?|[?|[]]]]; discriminate.
Defined.

Lemma account_address_guard_agrees_witness :
  AptosClient.AptosAccount_address (JStr "0x1") = inr (JStr "0x1").
Proof.
  destruct (account_address_guard_agrees "0x1") as [[_ Haccepts] _].
  apply Haccepts. reflexivity.
Defined.

(** ** White space and case *)

Lemma trimStart_length (s : string) :
  (String.length (JsString.trimStart s) <= String.length s)%nat.
Proof.
  induction s as [|a s IH]; simpl; [done|].
  destruct (JsString.is_space a); simpl; lia.
Qed.

Lemma trimStart_fixed (a : ascii) (s : string) :
  JsString.trimStart (String a s) = String a s <-> JsString.is_space a = false.
Proof.
  simpl. destruct (JsString.is_space a); [|done]. split; [|done].
  intros Heq. pose proof (trimStart_length s) as Hlen.
  rewrite Heq in Hlen. simpl in Hlen. lia.
Qed.

Lemma trimStart_idempotent (s : string) :
  JsString.trimStart (JsString.trimStart s) = JsString.trimStart s.
Proof.
  induction s as [|a s IH]; simpl; [done|].
  destruct (JsString.is_space a) eqn:Ha; [exact IH|].
  simpl. by rewrite Ha.
Qed.

Lemma trimEnd_idempotent (s : string) :
  JsString.trimEnd (JsString.trimEnd s) = JsString.trimEnd s.
Proof.
  induction s as [|a s IH]; simpl; [done|].
  destruct (JsString.trimEnd s) as [|b t] eqn:Hend.
  - destruct (JsString.is_space a) eqn:Ha; simpl; [done|by rewrite Ha].
  - change (JsString.trimEnd (String a (String b t)))
      with (match JsString.trimEnd (String b t) with
            | EmptyString =>
                if JsString.is_space a then EmptyString else String a EmptyString
            | u => String a u
            end).
    by rewrite IH.
Qed.

Lemma trimEnd_keeps_start (s : string) :
  JsString.trimStart s = s ->
  JsString.trimStart (JsString.trimEnd s) = JsString.trimEnd s.
Proof.
  destruct s as [|a s]; [done|].
  intros Ha%trimStart_fixed. simpl.
  destruct (JsString.trimEnd s) as [|b t]; [rewrite Ha|]; simpl;
    by rewrite Ha.
Qed.

Lemma trim_no_outer_space (s : string) : no_outer_space (JsString.trim s).
Proof.
  unfold no_outer_space, JsString.trim. split.
  - apply trimEnd_keeps_start, trimStart_idempotent.
  - apply trimEnd_idempotent.
Qed.

Lemma trim_idempotent (s : string) :
  JsString.trim (JsString.trim s) = JsString.trim s.
Proof.
  destruct (trim_no_outer_space s) as [Hstart Hend].
  unfold JsString.trim at 1. by rewrite Hstart, Hend.
Qed.

Lemma truthy_length (s : string) :
  (0 < String.length s)%nat -> JsString.truthy s = true.
Proof. destruct s; simpl; [lia|done]. Qed.

(** ** OpenExchange: options and authentication *)

(** X4: an [appId] is handed on to the base class only as a non-empty
    string without white space at either end; anything else (not a string,
    empty, white space only) is rejected with [CONFIG_INVALID_APP_ID] and
    the offending value in the context.  Setting the option again to the
    value that was handed on hands on the same value. *)
Theorem processOption_appId {JS : JsString.Prototype}
    (super_processOption : string -> JSON -> Completion JSON) (value : JSON) :
  let result :=
    OpenExchangeClient._processOption super_processOption "appId" value in
  (exists s,
     value = JStr s /\ JsString.trim s <> ""
     /\ no_outer_space (JsString.trim s)
     /\ result = super_processOption "appId" (JStr (JsString.trim s))
     /\ OpenExchangeClient._processOption super_processOption "appId"
          (JStr (JsString.trim s)) =
          super_processOption "appId" (JStr (JsString.trim s)))
  \/ ((forall s, value = JStr s -> JsString.trim s = "")
      /\ result =
           Throw (DomainError OpenExchange_vendor "CONFIG_INVALID_APP_ID"
                    (POwn "Application ID must be a non-empty string.")
                    {[ "appId" := value ]} None)).
Proof.
  intros result. subst result. unfold OpenExchangeClient._processOption.
  cbn [String.eqb Ascii.eqb Bool.eqb].
  assert (forall v : JSON,
            OpenExchange.OpenExchangeError "CONFIG_INVALID_APP_ID"
              (Some {[ "appId" := v ]}) None =
            DomainError OpenExchange_vendor "CONFIG_INVALID_APP_ID"
              (POwn "Application ID must be a non-empty string.")
              {[ "appId" := v ]} None) as Herror
    by (intros v; by apply OpenExchangeError_known).
  destruct value as [| | | |s| |];
    try (right; split; [discriminate|by rewrite Herror]).
  destruct (String.eqb (JsString.trim s) "") eqn:Hempty.
  - right. apply String.eqb_eq in Hempty. split; [by intros ? [= <-]|].
    by rewrite Herror.
  - left. exists s. apply String.eqb_neq in Hempty.
    repeat split; try done; try apply trim_no_outer_space.
    rewrite trim_idempotent.
    apply String.eqb_neq in Hempty. by rewrite Hempty.
Qed.

(** X5: a [baseCurrency] is handed on to the base class only when it is a
    string of three code units, and what is handed on is its upper case;
    any other value is rejected with [CONFIG_INVALID_BASE_CURRENCY] and the
    offending value in the context.  For three ASCII characters the value
    handed on has three characters again and no lower-case letter.  Every
    option other than [appId] and [baseCurrency] is handed on untouched. *)
Theorem processOption_baseCurrency {JS : JsString.Prototype}
    (super_processOption : string -> JSON -> Completion JSON) (value : JSON) :
  let result :=
    OpenExchangeClient._processOption super_processOption "baseCurrency" value in
  ((exists s,
      value = JStr s /\ String.length s = 3%nat
      /\ result =
           super_processOption "baseCurrency" (JStr (JsString.toUpperCase s))
      /\ (JsString.folds_ascii -> JsString.is_ascii s = true ->
          JsString.toUpperCase s = JsString.asciiUpperCase s
          /\ String.length (JsString.toUpperCase s) = 3%nat
          /\ JsString.forallb (fun a => negb (JsString.between "a" "z" a))
               (JsString.toUpperCase s) = true))
   \/ ((forall s, value = JStr s -> String.length s <> 3%nat)
       /\ result =
            Throw (DomainError OpenExchange_vendor "CONFIG_INVALID_BASE_CURRENCY"
                     (POwn "Base currency must be a 3-character string, got ${baseCurrency}.")
                     {[ "baseCurrency" := value ]} None)))
  /\ (forall key,
        key <> "appId" -> key <> "baseCurrency" ->
        OpenExchangeClient._processOption super_processOption key value =
          super_processOption key value).
Proof.
  intros result. subst result. split.
  - unfold OpenExchangeClient._processOption.
    cbn [String.eqb Ascii.eqb Bool.eqb].
    assert (forall v : JSON,
              OpenExchange.OpenExchangeError "CONFIG_INVALID_BASE_CURRENCY"
                (Some {[ "baseCurrency" := v ]}) None =
              DomainError OpenExchange_vendor "CONFIG_INVALID_BASE_CURRENCY"
                (POwn "Base currency must be a 3-character string, got ${baseCurrency}.")
                {[ "baseCurrency" := v ]} None) as Herror
      by (intros v; by apply OpenExchangeError_known).
    destruct value as [| | | |s| |];
      try (right; split; [discriminate|by rewrite Herror]).
    destruct (String.length s =? 3)%nat eqn:Hlen; cbv [negb].
    + left. exists s. apply Nat.eqb_eq in Hlen.
      split; [done|]. split; [done|]. split; [done|].
      intros Hfolds Hascii.
      destruct (toUpperCase_ascii s Hfolds Hascii) as (Hfold & _ & Hsame & Hlow).
      split; [exact Hfold|]. split; [by rewrite Hsame|exact Hlow].
    + right. apply Nat.eqb_neq in Hlen. split; [by intros ? [= <-]|].
      by rewrite Herror.
  - intros key HappId Hbase. unfold OpenExchangeClient._processOption.
    apply String.eqb_neq in HappId, Hbase. by rewrite HappId, Hbase.
Qed.

(** The base currencies ['usd'] and ['USDX'], and the option [timeout]. *)
Lemma processOption_baseCurrency_witness :
  let super_processOption : string -> JSON -> Completion JSON :=
    fun _ v => Return v in
  OpenExchangeClient._processOption super_processOption "baseCurrency"
    (JStr "usd") = Return (JStr "USD")
  /\ OpenExchangeClient._processOption super_processOption "baseCurrency"
       (JStr "USDX") =
       Throw (DomainError OpenExchange_vendor "CONFIG_INVALID_BASE_CURRENCY"
                (POwn "Base currency must be a 3-character string, got ${baseCurrency}.")
                {[ "baseCurrency" := JStr "USDX" ]} None)
  /\ OpenExchangeClient._processOption super_processOption "timeout" (JNum 30) =
       Return (JNum 30).
Proof.
  intros super_processOption.
  assert (JsString.folds_ascii) as Hfolds by (intros s _; reflexivity).
  split; [|split].
  - destruct (processOption_baseCurrency super_processOption (JStr "usd"))
      as [[(s & [= <-] & _ & Hresult & Hascii)|[Hlength _]] _].
    + destruct (Hascii Hfolds eq_refl) as (Hfold & _).
      rewrite Hresult. unfold super_processOption. by rewrite Hfold.
    + by specialize (Hlength "usd" eq_refl).
  - destruct (processOption_baseCurrency super_processOption (JStr "USDX"))
      as [[(s & [= <-] & Hlength & _)|[_ Hresult]] _].
    + discriminate Hlength.
    + exact Hresult.
  - destruct (processOption_baseCurrency super_processOption (JNum 30))
      as [_ Hother].
    apply Hother; discriminate.
Defined.

(** An [appId] with white space around it, and one that consists of two
    no-break spaces. *)
Lemma processOption_appId_witness :
  let nbsp : string := String "160"%char (String "160"%char "") in
  OpenExchangeClient._processOption (fun _ v => Return v) "appId"
    (JStr "  test-app-id ") = Return (JStr "test-app-id")
  /\ OpenExchangeClient._processOption (fun _ v => Return v) "appId"
       (JStr nbsp) =
       Throw (DomainError OpenExchange_vendor "CONFIG_INVALID_APP_ID"
                (POwn "Application ID must be a non-empty string.")
                {[ "appId" := JStr nbsp ]} None).
Proof.
  intros nbsp. split.
  - destruct (processOption_appId (fun _ v => Return v)
                (JStr "  test-app-id "))
      as [(s & [= <-] & _ & _ & Hresult & _)|[Hempty _]].
    + exact Hresult.
    + specialize (Hempty "  test-app-id " eq_refl). discriminate.
  - destruct (processOption_appId (fun _ v => Return v) (JStr nbsp))
      as [(s & [= <-] & Hnonempty & _)|[_ Hresult]].
    + by destruct Hnonempty.
    + exact Hresult.
Defined.

(** ** OpenExchange: the requests *)

Lemma rates_query_keys {JS : JsString.Prototype} (baseCurrency : option string)
    (query : gmap string string) (options : option OpenExchange.RatesOptions)
    (k : string) :
  k <> "base" -> k <> "symbols" ->
  OpenExchange.rates_query baseCurrency query options !! k = query !! k.
Proof.
  intros Hbase Hsymbols. unfold OpenExchange.rates_query. cbv zeta.
  set (with_base := match _ with Some b => _ | None => query end).
  assert (with_base !! k = query !! k) as Hwith.
  { subst with_base.
    destruct (match OpenExchange.base (default OpenExchange.no_options options)
              with Some b => b | None => _ end) as [b|]; [|done].
    destruct (JsString.truthy b); [|done].
    by rewrite lookup_insert_ne. }
  destruct (match OpenExchange.symbols (default OpenExchange.no_options options)
            with Some s => s | None => None end) as [symbols|]; [|done].
  destruct (0 <? length symbols)%nat; [|done].
  by rewrite lookup_insert_ne.
Qed.

Lemma default_base_truthy (baseCurrency : option string) :
  JsString.truthy (OpenExchange.default_base baseCurrency) = true.
Proof.
  unfold OpenExchange.default_base.
  destruct baseCurrency as [b|]; [|done].
  by destruct (JsString.truthy b) eqn:Hb.
Qed.

Lemma rates_query_base {JS : JsString.Prototype} (baseCurrency : option string)
    (query : gmap string string) (options : option OpenExchange.RatesOptions) :
  OpenExchange.rates_query baseCurrency query options !! "base" =
    match options with
    | Some (OpenExchange.mkRatesOptions (Some (Some b)) _) =>
        if JsString.truthy b then Some (JsString.toUpperCase b)
        else query !! "base"
    | Some (OpenExchange.mkRatesOptions (Some None) _) => query !! "base"
    | _ =>
        Some (JsString.toUpperCase (OpenExchange.default_base baseCurrency))
    end.
Proof.
  unfold OpenExchange.rates_query. cbv zeta.
  set (base := match OpenExchange.base _ with Some b => b | None => _ end).
  set (with_base := match base with Some b => _ | None => query end).
  assert (OpenExchange.rates_query baseCurrency query options !! "base" =
            with_base !! "base") as Hsame.
  { unfold OpenExchange.rates_query. cbv zeta. fold base. fold with_base.
    destruct (match OpenExchange.symbols _ with Some s => s | None => None end)
      as [symbols|]; [|done].
    destruct (0 <? length symbols)%nat; [|done].
    by rewrite lookup_insert_ne. }
  unfold OpenExchange.rates_query in Hsame. cbv zeta in Hsame.
  fold base in Hsame. fold with_base in Hsame. rewrite Hsame.
  subst with_base base.
  destruct options as [[[[b|]|] symbols]|]; simpl.
  - destruct (JsString.truthy b); [by rewrite lookup_insert_eq|done].
  - done.
  - rewrite default_base_truthy. by rewrite lookup_insert_eq.
  - rewrite default_base_truthy. by rewrite lookup_insert_eq.
Qed.

(** X6: the [base] parameter of every rate operation.  Without a [base]
    option the configured base currency is sent, or [USD] when none is
    configured, in upper case; a non-empty [base] option is sent in upper
    case; a [base] option that is [undefined] or empty switches the
    parameter off. *)
Theorem rate_requests_base {JS : JsString.Prototype}
    (baseCurrency : option string)
    (options : option OpenExchange.RatesOptions)
    (date startDate endDate period : string)
    (request : OpenExchange.RESTlerEndpoint) :
  In request
    [ OpenExchange.getRates_request baseCurrency options;
      OpenExchange.getHistoricalRates_request baseCurrency date options;
      OpenExchange.getTimeSeries_request baseCurrency startDate endDate options;
      OpenExchange.getOHLC_request baseCurrency startDate period options ] ->
  OpenExchange.query request !! "base" =
    match options with
    | Some (OpenExchange.mkRatesOptions (Some (Some b)) _) =>
        if JsString.truthy b then Some (JsString.toUpperCase b) else None
    | Some (OpenExchange.mkRatesOptions (Some None) _) => None
    | _ =>
        Some (JsString.toUpperCase
                match baseCurrency with
                | Some configured =>
                    if JsString.truthy configured then configured else "USD"
                | None => "USD"
                end)
    end.
Proof.
  intros Hin. simpl in Hin.
  destruct Hin as [<-|[<-|[<-|[<-|[]]]]]; simpl; rewrite rates_query_base;
    destruct options as [[[[b|]|] symbols]|]; try reflexivity;
    destruct (JsString.truthy b); try reflexivity; by simplify_map_eq.
Qed.

(** [getRates] without a [base] option on a client without a configured
    base currency, with the option ['eur'], and with the option present and
    [undefined]. *)
Lemma rate_requests_base_witness :
  let base_of (baseCurrency : option string)
      (base : option (option string)) :=
    OpenExchange.query
      (OpenExchange.getRates_request baseCurrency
         (Some (OpenExchange.mkRatesOptions base None))) !! "base" in
  base_of None None = Some "USD"
  /\ base_of (Some "GBP") (Some (Some "eur")) = Some "EUR"
  /\ base_of (Some "GBP") (Some None) = None.
Proof.
  intros base_of. split; [|split].
  - exact (rate_requests_base None
             (Some (OpenExchange.mkRatesOptions None None)) "" "" "" "" _
             (or_introl eq_refl)).
  - exact (rate_requests_base (Some "GBP")
             (Some (OpenExchange.mkRatesOptions (Some (Some "eur")) None))
             "" "" "" "" _ (or_introl eq_refl)).
  - exact (rate_requests_base (Some "GBP")
             (Some (OpenExchange.mkRatesOptions (Some None) None))
             "" "" "" "" _ (or_introl eq_refl)).
Defined.

(** X7: what the operations send besides [base] and [symbols].  The time
    series carries [start] and [end], the OHLC request [start_date] and
    [period], the conversion [amount] and, when a non-empty date is given,
    [date]; no request carries any other parameter, and the options of a
    rate operation never displace the dates. *)
Theorem request_parameters {JS : JsString.Prototype}
    (baseCurrency : option string)
    (Number_toString : Q -> string)
    (options : option OpenExchange.RatesOptions)
    (a b : string) (amount : Q) (date : option string) :
  let series := OpenExchange.query
    (OpenExchange.getTimeSeries_request baseCurrency a b options) in
  let ohlc := OpenExchange.query
    (OpenExchange.getOHLC_request baseCurrency a b options) in
  let conversion := OpenExchange.query
    (OpenExchange.convert_request Number_toString amount a b date) in
  (series !! "start" = Some a /\ series !! "end" = Some b)
  /\ (ohlc !! "start_date" = Some a /\ ohlc !! "period" = Some b)
  /\ (conversion !! "amount" = Some (Number_toString amount)
      /\ conversion !! "date" =
           match date with
           | Some d => if JsString.truthy d then Some d else None
           | None => None
           end)
  /\ (forall k, is_Some (series !! k) -> In k ["start"; "end"; "base"; "symbols"])
  /\ (forall k, is_Some (ohlc !! k) ->
        In k ["start_date"; "period"; "base"; "symbols"])
  /\ (forall k, is_Some (conversion !! k) -> In k ["amount"; "from"; "to"; "date"])
  /\ (forall k,
        is_Some (OpenExchange.query
                   (OpenExchange.getRates_request baseCurrency options) !! k) ->
        In k ["base"; "symbols"]).
Proof.
  intros series ohlc conversion. subst series ohlc conversion. simpl.
  assert (forall (q : gmap string string) k,
            is_Some (OpenExchange.rates_query baseCurrency q options !! k) ->
            k = "base" \/ k = "symbols" \/ is_Some (q !! k)) as Hkeys.
  { intros q k Hsome.
    destruct (decide (k = "base")) as [|Hbase]; [by left|].
    destruct (decide (k = "symbols")) as [|Hsymbols]; [by right; left|].
    right; right. by rewrite rates_query_keys in Hsome. }
  repeat split.
  - rewrite rates_query_keys by done. by simplify_map_eq.
  - rewrite rates_query_keys by done. by simplify_map_eq.
  - rewrite rates_query_keys by done. by simplify_map_eq.
  - rewrite rates_query_keys by done. by simplify_map_eq.
  - destruct date as [d|]; [destruct (JsString.truthy d)|]; by simplify_map_eq.
  - destruct date as [d|]; [destruct (JsString.truthy d)|]; by simplify_map_eq.
  - intros k [->| [->|Hsome]]%Hkeys; simpl; auto.
    destruct (decide (k = "start")) as [->|?]; [auto|].
    destruct (decide (k = "end")) as [->|?]; [auto|].
    exfalso; simplify_map_eq; by destruct Hsome.
  - intros k [->| [->|Hsome]]%Hkeys; simpl; auto.
    destruct (decide (k = "start_date")) as [->|?]; [auto|].
    destruct (decide (k = "period")) as [->|?]; [auto|].
    exfalso; simplify_map_eq; by destruct Hsome.
  - intros k Hsome.
    destruct (decide (k = "amount")) as [->|?]; [simpl; auto|].
    destruct (decide (k = "from")) as [->|?]; [simpl; auto|].
    destruct (decide (k = "to")) as [->|?]; [simpl; auto|].
    destruct (decide (k = "date")) as [->|?]; [simpl; auto|].
    exfalso;
      destruct date as [d|]; [destruct (JsString.truthy d)|];
      simplify_map_eq; by destruct Hsome.
  - intros k [->| [->|Hsome]]%Hkeys; simpl; auto.
    exfalso; simplify_map_eq; by destruct Hsome.
Qed.

Lemma request_parameters_witness :
  let series :=
    OpenExchange.query
      (OpenExchange.getTimeSeries_request None "2023-01-01" "2023-01-31" None) in
  series !! "start" = Some "2023-01-01"
  /\ In "end" ["start"; "end"; "base"; "symbols"].
Proof.
  intros series.
  destruct (request_parameters None (fun _ => "1") None "2023-01-01"
              "2023-01-31" 1 None)
    as ([Hstart _] & _ & _ & Hseries & _).
  split; [exact Hstart|].
  apply Hseries. by simplify_map_eq.
Defined.

(** X8: the authentication step.  With an [appId] configured the query of
    the request gets [app_id] set to it, whatever the request carried under
    that key, and every other parameter is kept; a request without a query
    gets one.  No operation of the client uses the key itself, so the
    injection only adds to what the operation built.  Without an [appId]
    the request is left as it is. *)
Theorem authInjector_query {JS : JsString.Prototype}
    (baseCurrency : option string)
    (_makeRequest : OpenExchange.Transport) (Number_toString : Q -> string)
    (usage currencies historical series conversion ohlc : Guardian.Validator)
    (a b : string) (amount : Q) (date : option string)
    (options : option OpenExchange.RatesOptions) (appId : string) :
  (forall query,
     exists injected,
       OpenExchangeClient._authInjector (Some appId) query = Some injected
       /\ injected !! "app_id" = Some appId
       /\ forall k, k <> "app_id" -> injected !! k = default ∅ query !! k)
  /\ (forall query, OpenExchangeClient._authInjector None query = query)
  /\ (forall request result,
        In (request, result)
           (OpenExchange_calls baseCurrency _makeRequest Number_toString usage
              currencies historical series conversion ohlc a b amount date
              options) ->
        OpenExchange.query request !! "app_id" = None).
Proof.
  split; [|split].
  - intros query. eexists. split; [reflexivity|].
    split; [by rewrite lookup_insert_eq|].
    intros k Hk. by rewrite lookup_insert_ne.
  - reflexivity.
  - intros request result Hin. simpl in Hin.
    destruct Hin as [[= <- <-]|[[= <- <-]|[[= <- <-]|[[= <- <-]|[[= <- <-]|
                    [[= <- <-]|[[= <- <-]|[]]]]]]]]; simpl;
      rewrite ?rates_query_keys by done; try done.
    destruct date as [d|]; [destruct (JsString.truthy d)|]; by simplify_map_eq.
Qed.

Lemma authInjector_query_witness :
  OpenExchange.query (OpenExchange.getRates_request None None) !! "app_id" = None
  /\ OpenExchangeClient._authInjector (Some "key")
       (Some (OpenExchange.query (OpenExchange.getRates_request None None)))
     = Some {[ "app_id" := "key"; "base" := "USD" ]}.
Proof.
  destruct (authInjector_query None (fun _ => Throw (JsError "unused"))
              (fun _ => "1")
              (Guardian.validate Guardian.GObject)
              (Guardian.validate Guardian.GObject)
              (Guardian.validate Guardian.GObject)
              (Guardian.validate Guardian.GObject)
              (Guardian.validate Guardian.GObject)
              (Guardian.validate Guardian.GObject)
              "" "" 1 None None "key")
    as (_ & _ & Hfree).
  split; [|vm_compute; reflexivity].
  eapply (Hfree (OpenExchange.getRates_request None None)).
  simpl. right. right. left. reflexivity.
Defined.

(** X9: a base currency of three ASCII characters that [_processOption]
    accepted is what the rate operations send as [base] when the caller
    names none: the configured value reaches the query unchanged. *)
Theorem configured_base_is_sent {JS : JsString.Prototype}
    (s configured : string) (query : gmap string string) :
  JsString.folds_ascii ->
  JsString.is_ascii s = true ->
  OpenExchangeClient._processOption (fun _ v => Return v) "baseCurrency"
    (JStr s) = Return (JStr configured) ->
  OpenExchange.rates_query (Some configured) query None !! "base" =
    Some configured
  /\ String.length configured = 3%nat.
Proof.
  intros Hfolds Hascii. unfold OpenExchangeClient._processOption.
  cbn [String.eqb Ascii.eqb Bool.eqb].
  destruct (String.length s =? 3)%nat eqn:Hlen; cbv [negb]; [|discriminate].
  apply Nat.eqb_eq in Hlen. intros [= <-].
  destruct (toUpperCase_ascii s Hfolds Hascii) as (_ & Hagain & Hsame & _).
  split; [|by rewrite Hsame].
  rewrite rates_query_base. unfold OpenExchange.default_base.
  rewrite truthy_length by lia. by rewrite Hagain.
Qed.

Lemma configured_base_is_sent_witness :
  OpenExchangeClient._processOption (fun _ v => Return v) "baseCurrency"
    (JStr "eur") = Return (JStr "EUR")
  /\ OpenExchange.rates_query (Some "EUR") ∅ None !! "base" = Some "EUR"
  /\ String.length "EUR" = 3%nat.
Proof.
  split; [reflexivity|].
  apply (configured_base_is_sent "eur");
    [intros s _; reflexivity|reflexivity|reflexivity].
Defined.

(** X10: the requests do not depend on the case of currency codes written
    in ASCII nor, for the name comparison, on white space around the names:
    sending the normalised input builds the same request as sending the
    input. *)
Theorem requests_insensitive {JS : JsString.Prototype}
    (baseCurrency : option string)
    (Number_toString : Q -> string) (_makeRequest : Surepass.Transport)
    (amount : Q) (from to : string) (date : option string)
    (base : string) (symbols : list string)
    (name1 name2 : string) (isCompany : bool) :
  JsString.folds_ascii ->
  JsString.is_ascii from = true -> JsString.is_ascii to = true ->
  JsString.is_ascii base = true ->
  Forall (fun s => JsString.is_ascii s = true) symbols ->
  OpenExchange.convert_request Number_toString amount
    (JsString.toUpperCase from) (JsString.toUpperCase to) date =
    OpenExchange.convert_request Number_toString amount from to date
  /\ OpenExchange.getRates_request baseCurrency
       (Some (OpenExchange.mkRatesOptions
                (Some (Some (JsString.toUpperCase base)))
                (Some (Some (map JsString.toUpperCase symbols))))) =
     OpenExchange.getRates_request baseCurrency
       (Some (OpenExchange.mkRatesOptions (Some (Some base))
                (Some (Some symbols))))
  /\ Surepass.compareNames _makeRequest (JsString.trim name1)
       (JsString.trim name2) isCompany =
     Surepass.compareNames _makeRequest name1 name2 isCompany.
Proof.
  intros Hfolds Hfrom Hto Hbase Hsymbols.
  destruct (toUpperCase_ascii from Hfolds Hfrom) as (_ & Hfrom' & _).
  destruct (toUpperCase_ascii to Hfolds Hto) as (_ & Hto' & _).
  destruct (toUpperCase_ascii base Hfolds Hbase) as (_ & Hbase' & Hlen & _).
  split; [|split].
  - unfold OpenExchange.convert_request. by rewrite Hfrom', Hto'.
  - unfold OpenExchange.getRates_request, OpenExchange.rates_query. simpl.
    rewrite Hbase', length_map.
    assert (JsString.truthy (JsString.toUpperCase base) = JsString.truthy base)
      as ->.
    { clear Hbase'.
      destruct (JsString.toUpperCase base) as [|d u], base as [|c base'];
        simpl in Hlen; first [discriminate Hlen | reflexivity]. }
    assert (map JsString.toUpperCase (map JsString.toUpperCase symbols) =
              map JsString.toUpperCase symbols) as ->; [|done].
    rewrite map_map.
    induction Hsymbols as [|s rest Hs _ IH]; simpl; [done|].
    rewrite IH. f_equal.
    by destruct (toUpperCase_ascii s Hfolds Hs) as (_ & -> & _).
  - unfold Surepass.compareNames. by rewrite !trim_idempotent.
Qed.

(** [convert(100, 'usd', 'eur')] against [convert(100, 'USD', 'EUR')], and
    the names of the repository's test with white space around them. *)
Lemma requests_insensitive_witness :
  OpenExchange.convert_request (fun _ => "100") 100 "USD" "EUR" None =
    OpenExchange.convert_request (fun _ => "100") 100 "usd" "eur" None
  /\ Surepass.compareNames (fun _ => Throw (JsError "unused"))
       "John Doe" "john doe" false =
     Surepass.compareNames (fun _ => Throw (JsError "unused"))
       "  John Doe " " john doe  " false.
Proof.
  destruct (requests_insensitive None (fun _ => "100")
              (fun _ => Throw (JsError "unused")) 100 "usd" "eur" None
              "gbp" ["usd"] "  John Doe " " john doe  " false)
    as (Hconvert & _ & Hnames);
    [intros s _; reflexivity|reflexivity..| |].
  - by repeat constructor.
  - split; [exact Hconvert|exact Hnames].
Defined.

(** ** OpenExchange: outcomes of the response handling *)

Lemma handle_returns {JS : JsString.Prototype}
    (resp : OpenExchange.RESTlerResponse)
    (guard : Guardian.Validator) (validated : JSON) :
  OpenExchange.__handle resp guard = Return validated <->
  OpenExchange.error_status (OpenExchange.status resp) = false
  /\ guard (OpenExchange.body resp) = inr validated.
Proof.
  unfold OpenExchange.__handle. cbv zeta.
  destruct (OpenExchange.status resp =? 200) eqn:H200.
  - assert (OpenExchange.error_status (OpenExchange.status resp) = false) as ->.
    { apply Z.eqb_eq in H200. by rewrite H200. }
    destruct (guard (OpenExchange.body resp)) as [err|b];
      (split; [intros Heq|intros [_ Heq]]);
      first [discriminate | by injection Heq as <-].
  - destruct (OpenExchange.error_status (OpenExchange.status resp)).
    + split; [|by intros [[=] _]].
      destruct (Guardian.validate OpenExchange.ErrorSchemaObject
                  (OpenExchange.body resp)); [discriminate|].
      repeat match goal with
             | |- context [if ?b then _ else _] => destruct b
             end; discriminate.
    + destruct (guard (OpenExchange.body resp)) as [err|b];
        (split; [intros Heq|intros [_ Heq]]);
        first [discriminate | by injection Heq as <-].
Qed.

(** X11: [__handle] returns exactly what the guard makes of the body, and
    only on a status that is not one of the error statuses: nothing is
    returned that the guard did not accept, and nothing is returned for
    400, 401, 403, 404 and 429 even when the body would pass the guard. *)
Theorem handle_returns_iff {JS : JsString.Prototype}
    (resp : OpenExchange.RESTlerResponse)
    (guard : Guardian.Validator) (validated : JSON) :
  OpenExchange.__handle resp guard = Return validated <->
  OpenExchange.error_status (OpenExchange.status resp) = false
  /\ guard (OpenExchange.body resp) = inr validated.
Proof.
  split.
  - intros Hreturn. by apply handle_returns.
  - intros [Hstatus Hguard]. by apply handle_returns.
Qed.

Lemma handle_returns_iff_witness :
  OpenExchange.__handle (OpenExchange.mkResponse 200 mockLatestRatesResponse)
    (Guardian.validate OpenExchange.LatestRatesSchemaObject) =
    Return mockLatestRatesResponse.
Proof.
  apply handle_returns_iff. split; vm_compute; reflexivity.
Defined.

Lemma thrown_context (code text : string) (context : gmap string JSON)
    (status : Z) (body : JSON) (e : Exception) :
  Runtime.own OpenExchange.OpenExchangeErrorCodes code = Some text ->
  In code handle_codes ->
  context !! "status" = Some (JNum (inject_Z status)) ->
  context !! "body" = Some body ->
  context !! "originalCode" = None ->
  Throw (A := JSON)
    (OpenExchange.OpenExchangeError code (Some context) None) = Throw e ->
  exists code' text' context',
    e = DomainError OpenExchange_vendor code' (POwn text') context' None
    /\ code' = code
    /\ Runtime.own OpenExchange.OpenExchangeErrorCodes code' = Some text'
    /\ In code' handle_codes
    /\ context' !! "status" = Some (JNum (inject_Z status))
    /\ context' !! "body" = Some body
    /\ context' !! "originalCode" = None.
Proof.
  intros Hown Hin Hstatus Hbody Horiginal.
  rewrite (OpenExchangeError_known code text _ _ Hown). intros [= <-].
  eexists _, _, _. repeat split; eauto.
Qed.

(** Every [throw] of [__handle] is [throw new OpenExchangeError(code, meta)]
    for one of six codes, with the status and the body of the response in
    the metadata and no [originalCode]. *)
Lemma handle_throws {JS : JsString.Prototype}
    (resp : OpenExchange.RESTlerResponse) (guard : Guardian.Validator)
    (e : Exception) :
  OpenExchange.__handle resp guard = Throw e ->
  exists code text context,
    e = DomainError OpenExchange_vendor code (POwn text) context None
    /\ Runtime.own OpenExchange.OpenExchangeErrorCodes code = Some text
    /\ In code handle_codes
    /\ context !! "status" = Some (JNum (inject_Z (OpenExchange.status resp)))
    /\ context !! "body" = Some (OpenExchange.body resp)
    /\ context !! "originalCode" = None
    /\ (code = "SERVICE_UNAVAILABLE" <->
          OpenExchange.status resp <> 200
          /\ OpenExchange.error_status (OpenExchange.status resp) = false).
Proof.
  unfold OpenExchange.__handle. cbv zeta.
  set (status := OpenExchange.status resp).
  set (body := OpenExchange.body resp).
  assert (forall code text context,
            Runtime.own OpenExchange.OpenExchangeErrorCodes code = Some text ->
            In code handle_codes ->
            context !! "status" = Some (JNum (inject_Z status)) ->
            context !! "body" = Some body ->
            context !! "originalCode" = None ->
            (code = "SERVICE_UNAVAILABLE" <->
               status <> 200 /\ OpenExchange.error_status status = false) ->
            Throw (A := JSON)
              (OpenExchange.OpenExchangeError code (Some context) None) =
              Throw e ->
            exists code text context,
              e = DomainError OpenExchange_vendor code (POwn text) context None
              /\ Runtime.own OpenExchange.OpenExchangeErrorCodes code = Some text
              /\ In code handle_codes
              /\ context !! "status" = Some (JNum (inject_Z status))
              /\ context !! "body" = Some body
              /\ context !! "originalCode" = None
              /\ (code = "SERVICE_UNAVAILABLE" <->
                    status <> 200 /\ OpenExchange.error_status status = false))
    as Hthrow.
  { intros code text context Hown Hin Hstatus Hbody Horiginal Hservice Heq.
    destruct (thrown_context code text context status body e Hown Hin
                Hstatus Hbody Horiginal Heq)
      as (code' & text' & context' & -> & -> & ? & ? & ? & ? & ?).
    eexists _, _, _. do 6 (split; [eassumption || reflexivity|]). exact Hservice. }
  destruct (status =? 200) eqn:H200.
  - apply Z.eqb_eq in H200.
    destruct (guard body) as [err|b]; [|discriminate].
    apply (Hthrow "RESPONSE_ERROR" _ _ eq_refl);
      [simpl; auto|by simplify_map_eq..|].
    split; [discriminate|]. intros [Hne _]. done.
  - apply Z.eqb_neq in H200.
    destruct (OpenExchange.error_status status) eqn:Herr.
    + destruct (Guardian.validate OpenExchange.ErrorSchemaObject body)
        as [err|errBody].
      * apply (Hthrow "RESPONSE_ERROR" _ _ eq_refl);
          [simpl; auto|by simplify_map_eq..|].
        split; [discriminate|]. by intros [_ [=]].
      * repeat match goal with
               | |- context [if ?b then _ else _] => destruct b
               end;
          [ apply (Hthrow "NOT_FOUND" _ _ eq_refl)
          | apply (Hthrow "MISSING_APP_ID" _ _ eq_refl)
          | apply (Hthrow "INVALID_APP_ID" _ _ eq_refl)
          | apply (Hthrow "NOT_ALLOWED" _ _ eq_refl)
          | apply (Hthrow "RESPONSE_ERROR" _ _ eq_refl) ];
          try (simpl; auto 10; fail); try (by simplify_map_eq);
          (split; [discriminate|by intros [_ [=]]]).
    + destruct (guard body) as [err|b]; [|discriminate].
      apply (Hthrow "SERVICE_UNAVAILABLE" _ _ eq_refl);
        [simpl; auto 10|by simplify_map_eq..|].
      split; [done|done].
Qed.

(** X12: whatever the caller of [__handle] receives as a failure comes from
    [throw new OpenExchangeError(code, meta)] with one of six codes, whose
    metadata holds the status and the body of the response and never an
    [originalCode]; [SERVICE_UNAVAILABLE] is the code exactly for a status
    that is neither 200 nor one of the error statuses.  The failure is that
    [OpenExchangeError] when the base class constructs it, and the failure
    of the construction otherwise. *)
Theorem handle_throws_context {JS : JsString.Prototype}
    (variableReplacer : VariableReplacer)
    (resp : OpenExchange.RESTlerResponse) (guard : Guardian.Validator)
    (e : Exception) :
  raised variableReplacer (OpenExchange.__handle resp guard) = Throw e ->
  exists code text context,
    Runtime.own OpenExchange.OpenExchangeErrorCodes code = Some text
    /\ In code handle_codes
    /\ context !! "status" = Some (JNum (inject_Z (OpenExchange.status resp)))
    /\ context !! "body" = Some (OpenExchange.body resp)
    /\ context !! "originalCode" = None
    /\ (code = "SERVICE_UNAVAILABLE" <->
          OpenExchange.status resp <> 200
          /\ OpenExchange.error_status (OpenExchange.status resp) = false)
    /\ e = match variableReplacer OpenExchange._messageTemplate (POwn text)
                    context with
           | None => DomainError OpenExchange_vendor code (POwn text) context None
           | Some failure => JsError failure
           end.
Proof.
  destruct (OpenExchange.__handle resp guard) as [b|e0] eqn:Hhandle;
    [discriminate|].
  simpl. intros [= <-].
  destruct (handle_throws resp guard e0 Hhandle)
    as (code & text & context & -> & Hown & Hin & Hstatus & Hbody & Horiginal
        & Hservice).
  exists code, text, context.
  do 6 (split; [assumption|]). reflexivity.
Qed.

(** A 404 without a body under a base class that constructs every error,
    and a 500 whose body fails the guard under one that fails on the
    [SERVICE_UNAVAILABLE] message. *)
Lemma handle_throws_context_witness :
  let constructs : VariableReplacer := fun _ _ _ => None in
  let fails : VariableReplacer := fun _ message _ =>
    match message with
    | POwn "Open Exchange service is currently unavailable." =>
        Some "Circular reference detected during variable replacement"
    | _ => None
    end in
  let guard := Guardian.validate OpenExchange.LatestRatesSchemaObject in
  (exists code text context,
     Runtime.own OpenExchange.OpenExchangeErrorCodes code = Some text
     /\ context !! "status" = Some (JNum 404)
     /\ raised constructs
          (OpenExchange.__handle (OpenExchange.mkResponse 404 JNull) guard) =
          Throw (DomainError OpenExchange_vendor code (POwn text) context None))
  /\ raised fails
       (OpenExchange.__handle
          (OpenExchange.mkResponse 500
             (JObj [("error", JStr "Internal server error")])) guard) =
       Throw (JsError "Circular reference detected during variable replacement").
Proof.
  intros constructs fails guard. split.
  - destruct (raised constructs
                (OpenExchange.__handle (OpenExchange.mkResponse 404 JNull)
                   guard)) as [b|e] eqn:Hhandle; [discriminate|].
    destruct (handle_throws_context constructs _ _ e Hhandle)
      as (code & text & context & Hown & _ & Hstatus & _ & _ & _ & ->).
    exists code, text, context. auto.
  - destruct (raised fails
                (OpenExchange.__handle
                   (OpenExchange.mkResponse 500
                      (JObj [("error", JStr "Internal server error")]))
                   guard)) as [b|e] eqn:Hhandle; [discriminate|].
    destruct (handle_throws_context fails _ _ e Hhandle)
      as (code & text & context & Hown & _ & _ & _ & _ & Hservice & ->).
    destruct Hservice as [_ Hservice].
    rewrite Hservice in Hown by (split; [discriminate|reflexivity]).
    injection Hown as <-. reflexivity.
Defined.

(** ** Schemas of the responses *)

Lemma validate_fields_accepts {JS : JsString.Prototype}
    (o : list (string * JSON))
    (fields : list (string * Guardian.Guard)) :
  (exists r, validate_fields o fields = inr r) <->
  Forall (fun field => accepts (snd field) (Js.field o (fst field))) fields.
Proof.
  induction fields as [|[k g] fields IH]; simpl.
  - split; [constructor|eauto].
  - split.
    + intros [r Hr].
      destruct (Guardian.validate g (Js.field o k)) as [e|v] eqn:Hv;
        destruct (validate_fields o fields) as [es|acc] eqn:Hacc;
        try discriminate.
      constructor; [by exists v|]. apply IH. eauto.
    + intros Hall. inversion Hall as [|? ? [v Hv] Hrest]; subst.
      apply IH in Hrest as [acc Hacc]. simpl in Hv.
      rewrite Hv, Hacc. simpl. eauto.
Qed.

Lemma validate_fields_agree {JS : JsString.Prototype}
    (o o' : list (string * JSON))
    (fields : list (string * Guardian.Guard)) :
  (forall k g, In (k, g) fields -> Js.field o k = Js.field o' k) ->
  validate_fields o fields = validate_fields o' fields.
Proof.
  induction fields as [|[k g] fields IH]; intros Hagree; simpl; [done|].
  rewrite (Hagree k g) by (simpl; auto).
  rewrite IH; [done|]. intros k' g' Hin. apply (Hagree k' g'). simpl. auto.
Qed.

Lemma schema_accepts {JS : JsString.Prototype}
    (fields : list (string * Guardian.Guard))
    (o : list (string * JSON)) :
  accepts (Guardian.GSchema fields) (JObj o) <->
  forall k g, In (k, g) fields -> accepts g (Js.field o k).
Proof.
  unfold accepts at 1. rewrite validate_schema_unfold.
  pose proof (validate_fields_accepts o fields) as Hiff.
  rewrite Forall_forall in Hiff. split.
  - intros [r Hr] k g Hin.
    destruct (validate_fields o fields) as [e|acc] eqn:Hacc; [discriminate|].
    destruct Hiff as [Hiff _].
    apply (Hiff (ex_intro _ acc eq_refl) (k, g)).
    by apply list_elem_of_In.
  - intros Hall. destruct Hiff as [_ Hiff].
    destruct Hiff as [acc Hacc].
    + intros [k g] Hin. apply Hall. by apply list_elem_of_In.
    + rewrite Hacc. eauto.
Qed.

(** An object schema accepts an object exactly when every declared
    field's guard accepts the value under its key ([undefined] when the key
    is missing), and the verdict depends on the declared keys only: fields
    that are not declared are ignored. *)
Theorem schema_accepts_iff {JS : JsString.Prototype}
    (fields : list (string * Guardian.Guard))
    (o : list (string * JSON)) :
  (accepts (Guardian.GSchema fields) (JObj o) <->
     forall k g, In (k, g) fields -> accepts g (Js.field o k))
  /\ (forall o',
        (forall k g, In (k, g) fields -> Js.field o k = Js.field o' k) ->
        Guardian.validate (Guardian.GSchema fields) (JObj o') =
          Guardian.validate (Guardian.GSchema fields) (JObj o)).
Proof.
  split.
  - apply schema_accepts.
  - intros o' Hagree. rewrite !validate_schema_unfold.
    by rewrite (validate_fields_agree o o' fields Hagree).
Qed.

Lemma schema_accepts_iff_witness :
  accepts Surepass.SurepassNameMatchSchema
    (JObj [ ("client_id", JStr "c1"); ("name_1", JStr "John Doe");
            ("name_2", JStr "john doe"); ("match_score", JNum (95 # 100));
            ("match_status", JBool true); ("extra", JNull) ]).
Proof.
  apply schema_accepts_iff. intros k g Hin. simpl in Hin.
  destruct Hin as [[= <- <-]|[[= <- <-]|[[= <- <-]|[[= <- <-]|[[= <- <-]|[]]]]]];
    eexists; reflexivity.
Defined.

Lemma accepts_optional {JS : JsString.Prototype}
    (g : Guardian.Guard) (v : JSON) :
  accepts (Guardian.GOptional g) v <->
  v = JUndefined \/ v = JNull \/ accepts g v.
Proof.
  unfold accepts. destruct v; simpl; split; eauto;
    intros [?|[?|?]]; try discriminate; eauto.
Qed.

Lemma accepts_string {JS : JsString.Prototype} (v : JSON) :
  accepts (Guardian.GString []) v <-> exists s, v = JStr s.
Proof.
  unfold accepts. destruct v; simpl; split;
    try (intros [? ?]; discriminate); eauto.
Qed.

Lemma accepts_string_in {JS : JsString.Prototype}
    (allowed : list string) (v : JSON) :
  accepts (Guardian.GString [Guardian.str_in allowed]) v <->
  exists s, v = JStr s /\ In s allowed.
Proof.
  unfold accepts. destruct v; simpl; split;
    try (intros [? ?]; discriminate); try (intros (? & ? & ?); discriminate).
  - intros [r Hr].
    destruct (existsb (String.eqb s) allowed) eqn:Hin; [|discriminate].
    apply existsb_exists in Hin as (m & Hm & ->%String.eqb_eq). eauto.
  - intros (m & [= <-] & Hin).
    assert (existsb (String.eqb s) allowed = true) as ->; [|eauto].
    apply existsb_exists. exists s. split; [done|apply String.eqb_refl].
Qed.

Lemma accepts_number_in {JS : JsString.Prototype}
    (allowed : list Z) (v : JSON) :
  accepts (Guardian.GNumber [Guardian.num_in allowed]) v <->
  exists q k, v = JNum q /\ In k allowed /\ (q == inject_Z k)%Q.
Proof.
  unfold accepts. destruct v; simpl; split;
    try (intros [? ?]; discriminate); try (intros (? & ? & ? & ?); discriminate).
  - intros [r Hr]. rewrite andb_true_r in Hr.
    destruct (existsb _ allowed) eqn:Hin; [|discriminate].
    apply existsb_exists in Hin as (k & Hk & Heq%Qeq_bool_iff). eauto.
  - intros (q' & k & [= <-] & Hin & Heq). rewrite andb_true_r.
    assert (existsb (fun k => Qeq_bool q (inject_Z k)) allowed = true) as ->;
      [|eauto].
    apply existsb_exists. exists k. split; [done|by apply Qeq_bool_iff].
Qed.

(** X13: the error schema accepts exactly the objects whose [error] is
    [true], whose [status] is one of 400, 401, 403, 404 and 429, whose
    [message] is one of the six identifiers and whose [description] is a
    string; nothing that is not an object is accepted. *)
Theorem ErrorSchemaObject_accepts {JS : JsString.Prototype} (body : JSON) :
  accepts OpenExchange.ErrorSchemaObject body <->
  exists o,
    body = JObj o
    /\ Js.field o "error" = JBool true
    /\ (exists q k,
          Js.field o "status" = JNum q
          /\ In k [400; 401; 403; 404; 429] /\ (q == inject_Z k)%Q)
    /\ (exists m,
          Js.field o "message" = JStr m
          /\ In m [ "not_found"; "missing_app_id"; "invalid_app_id";
                    "not_allowed"; "access_restricted"; "invalid_base" ])
    /\ (exists d, Js.field o "description" = JStr d).
Proof.
  destruct body as [| | | | | |o];
    try (split; [intros [r Hr]; discriminate|intros (o & Ho & _); discriminate]).
  unfold OpenExchange.ErrorSchemaObject.
  rewrite (schema_accepts
              [ ("error", Guardian.GBoolean (Some true));
                ("status", Guardian.GNumber [Guardian.num_in [400; 401; 403; 404; 429]]);
                ("message",
                  Guardian.GString
                    [Guardian.str_in [ "not_found"; "missing_app_id";
                                       "invalid_app_id"; "not_allowed";
                                       "access_restricted"; "invalid_base" ]]);
                ("description", Guardian.GString []) ] o).
  split.
  - intros Hall. exists o. split; [done|].
    split; [|split; [|split]].
    + destruct (Hall "error" _ (or_introl eq_refl)) as [r Hr].
      destruct (Js.field o "error") as [| |[|]| | | |]; by try discriminate.
    + apply accepts_number_in. apply Hall. simpl. auto.
    + apply accepts_string_in. apply Hall. simpl. auto.
    + apply accepts_string. apply Hall. simpl. auto 10.
  - intros (o' & [= <-] & Herror & Hstatus & Hmessage & Hdescription) k g Hin.
    simpl in Hin.
    destruct Hin as [[= <- <-]|[[= <- <-]|[[= <- <-]|[[= <- <-]|[]]]]].
    + rewrite Herror. eexists. reflexivity.
    + by apply accepts_number_in.
    + by apply accepts_string_in.
    + by apply accepts_string.
Qed.

Lemma ErrorSchemaObject_accepts_witness :
  accepts OpenExchange.ErrorSchemaObject
    (JObj [ ("error", JBool true); ("status", JNum 400);
            ("message", JStr "invalid_base");
            ("description", JStr "Invalid base currency provided.") ]).
Proof.
  apply ErrorSchemaObject_accepts. eexists. split; [reflexivity|].
  split; [reflexivity|]. split; [|split].
  - exists 400%Q, 400. split; [reflexivity|]. split; [simpl; auto|reflexivity].
  - eexists. split; [reflexivity|]. simpl. auto 10.
  - eexists. reflexivity.
Defined.

(** X14: the Surepass envelope schema accepts exactly the objects in which
    each of the five fields is left out, [null], or of its declared type
    (an integer, a boolean, a string, a string, an object); the empty
    object is a valid envelope, and nothing but an object is. *)
Theorem SurepassResponseSchema_accepts {JS : JsString.Prototype} (body : JSON) :
  accepts Surepass.SurepassResponseSchema body <->
  exists o,
    body = JObj o
    /\ absent_or (fun v => exists q, v = JNum q /\ Js.is_integer q = true)
         (Js.field o "status_code")
    /\ absent_or (fun v => exists b, v = JBool b) (Js.field o "success")
    /\ absent_or (fun v => exists s, v = JStr s) (Js.field o "message")
    /\ absent_or (fun v => exists s, v = JStr s) (Js.field o "message_code")
    /\ absent_or (fun v => exists d, v = JObj d) (Js.field o "data").
Proof.
  destruct body as [| | | | | |o];
    try (split; [intros [r Hr]; discriminate|intros (o & Ho & _); discriminate]).
  unfold Surepass.SurepassResponseSchema.
  rewrite (schema_accepts
              [ ("status_code", Guardian.GOptional (Guardian.GNumber [Guardian.integer]));
                ("success", Guardian.GOptional (Guardian.GBoolean None));
                ("message", Guardian.GOptional (Guardian.GString []));
                ("message_code",
                  Guardian.GOptional (Guardian.GString [Guardian.upperCase]));
                ("data", Guardian.GOptional Guardian.GObject) ] o).
  assert (forall v,
            accepts (Guardian.GNumber [Guardian.integer]) v <->
            exists q, v = JNum q /\ Js.is_integer q = true) as Hnumber.
  { intros v. unfold accepts. destruct v; simpl; split;
      try (intros [? ?]; discriminate); try (intros (? & ? & ?); discriminate).
    - rewrite andb_true_r. intros [r Hr].
      destruct (Js.is_integer q) eqn:Hq; [eauto|discriminate].
    - intros (q' & [= <-] & ->). eauto. }
  assert (forall v,
            accepts (Guardian.GBoolean None) v <-> exists b, v = JBool b)
    as Hboolean.
  { intros v. unfold accepts. destruct v; simpl; split;
      try (intros [? ?]; discriminate); eauto. }
  assert (forall v,
            accepts (Guardian.GString [Guardian.upperCase]) v <->
            exists s, v = JStr s) as Hupper.
  { intros v. unfold accepts. destruct v; simpl; split;
      try (intros [? ?]; discriminate); eauto. }
  assert (forall v, accepts Guardian.GObject v <-> exists d, v = JObj d)
    as Hobject.
  { intros v. unfold accepts. destruct v; simpl; split;
      try (intros [? ?]; discriminate); eauto. }
  unfold absent_or. split.
  - intros Hall. exists o. split; [done|].
    split; [|split; [|split; [|split]]].
    + rewrite <- Hnumber. apply accepts_optional, Hall. simpl. auto.
    + rewrite <- Hboolean. apply accepts_optional, Hall. simpl. auto.
    + rewrite <- accepts_string. apply accepts_optional, Hall. simpl. auto.
    + rewrite <- Hupper. apply accepts_optional, Hall. simpl. auto 10.
    + rewrite <- Hobject. apply accepts_optional, Hall. simpl. auto 10.
  - intros (o' & [= <-] & H1 & H2 & H3 & H4 & H5) k g Hin. simpl in Hin.
    destruct Hin as [[= <- <-]|[[= <- <-]|[[= <- <-]|[[= <- <-]|[[= <- <-]|[]]]]]];
      apply accepts_optional.
    + by rewrite Hnumber.
    + by rewrite Hboolean.
    + by rewrite accepts_string.
    + by rewrite Hupper.
    + by rewrite Hobject.
Qed.

Lemma SurepassResponseSchema_accepts_witness :
  accepts Surepass.SurepassResponseSchema (JObj []).
Proof.
  apply SurepassResponseSchema_accepts. exists []. unfold absent_or.
  repeat split; by left.
Defined.

Lemma validate_keyValue_unfold {JS : JsString.Prototype}
    (key value : Guardian.Guard)
    (o : list (string * JSON)) :
  Guardian.validate (Guardian.GKeyValue key value) (JObj o) =
    match validate_entries key value o with
    | inr validated => inr (JObj validated)
    | inl e => inl e
    end.
Proof. reflexivity. Qed.

Lemma validate_rates {JS : JsString.Prototype} (o r : list (string * JSON)) :
  validate_entries (Guardian.GString [Guardian.minLength 3; Guardian.maxLength 3])
    (Guardian.GNumber [Guardian.positive]) o = inr r ->
  r = o /\ Forall is_rate o.
Proof.
  revert r. induction o as [|[k x] o IH]; intros r; simpl.
  - intros [= <-]. split; [done|constructor].
  - destruct (3 <? String.length k)%nat eqn:Hmax;
      destruct (String.length k <? 3)%nat eqn:Hmin; simpl;
      destruct (validate_entries _ _ o) as [e|acc] eqn:Hacc;
      destruct x as [| | |q| | |]; simpl; rewrite ?andb_true_r;
      try destruct (Qle_bool q 0) eqn:Hq; simpl;
      intros Heq; try discriminate Heq.
    injection Heq as <-. destruct (IH acc eq_refl) as [-> Hrates].
    split; [done|]. constructor; [|done]. split; simpl.
    + apply Nat.ltb_ge in Hmax, Hmin. lia.
    + exists q. split; [done|].
      apply Qnot_le_lt. intros Hle. apply Qle_bool_iff in Hle. congruence.
Qed.

Lemma LatestRates_rates {JS : JsString.Prototype} (body validated : JSON) :
  Guardian.validate OpenExchange.LatestRatesSchemaObject body = inr validated ->
  Js.prop validated "rates" = Js.prop body "rates"
  /\ exists rates, Js.prop body "rates" = JObj rates /\ Forall is_rate rates.
Proof.
  destruct body as [| | | | | |o]; try discriminate.
  unfold OpenExchange.LatestRatesSchemaObject. rewrite validate_schema_unfold.
  cbn [validate_fields].
  destruct (Guardian.validate _ (Js.field o "disclaimer")) as [?|v1];
  destruct (Guardian.validate _ (Js.field o "license")) as [?|v2];
  destruct (Guardian.validate _ (Js.field o "timestamp")) as [?|v3];
  destruct (Guardian.validate _ (Js.field o "base")) as [?|v4];
  destruct (Guardian.validate OpenExchange.RateSchemaObject (Js.field o "rates"))
    as [?|v5] eqn:H5;
    try discriminate.
  intros [= <-]. cbn [Js.prop Guardian.combine].
  rewrite !field_add_field. cbn [String.eqb Ascii.eqb Bool.eqb]. simpl Js.field.
  unfold OpenExchange.RateSchemaObject in H5.
  destruct (Js.field o "rates") as [| | | | | |rates]; try discriminate.
  rewrite validate_keyValue_unfold in H5.
  destruct (validate_entries _ _ rates) as [e|r] eqn:Hrates; [discriminate|].
  injection H5 as <-. apply validate_rates in Hrates as [-> Hall]. eauto.
Qed.

(** X15: [getRates] returns the [rates] object of the body as it came in,
    and it returns exactly when the status is none of the error statuses
    and the body passes the latest-rates schema; every rate it returns is a
    positive number under a code of three characters. *)
Theorem getRates_returns_rates {JS : JsString.Prototype}
    (baseCurrency : option string)
    (_makeRequest : OpenExchange.Transport)
    (options : option OpenExchange.RatesOptions)
    (resp : OpenExchange.RESTlerResponse) (result : JSON) :
  _makeRequest (OpenExchange.getRates_request baseCurrency options) =
    Return resp ->
  (OpenExchange.getRates baseCurrency _makeRequest options = Return result <->
     OpenExchange.error_status (OpenExchange.status resp) = false
     /\ accepts OpenExchange.LatestRatesSchemaObject (OpenExchange.body resp)
     /\ result = Js.prop (OpenExchange.body resp) "rates")
  /\ (OpenExchange.getRates baseCurrency _makeRequest options = Return result ->
      exists rates, result = JObj rates /\ Forall is_rate rates).
Proof.
  intros Htransport. unfold OpenExchange.getRates, Runtime.bind.
  rewrite Htransport.
  destruct (OpenExchange.__handle resp
              (Guardian.validate OpenExchange.LatestRatesSchemaObject))
    as [validated|e] eqn:Hhandle.
  - apply handle_returns in Hhandle as [Hstatus Hvalid].
    destruct (LatestRates_rates _ _ Hvalid) as (Hsame & rates & Hrates & Hall).
    split.
    + split.
      * intros [= <-]. split; [done|]. split; [by exists validated|done].
      * intros (_ & _ & ->). by rewrite Hsame.
    + intros [= <-]. rewrite Hsame. eauto.
  - split; [|discriminate]. split; [discriminate|].
    intros (Hstatus & [validated Hvalid] & _).
    assert (OpenExchange.__handle resp
              (Guardian.validate OpenExchange.LatestRatesSchemaObject) =
              Return validated) as Hreturn by by apply handle_returns.
    rewrite Hreturn in Hhandle. discriminate.
Qed.

Lemma getRates_returns_rates_witness :
  OpenExchange.getRates None
    (fun _ => Return (OpenExchange.mkResponse 200 mockLatestRatesResponse)) None =
    Return (JObj [ ("EUR", JNum (883 # 1000)); ("GBP", JNum (741 # 1000));
                   ("JPY", JNum (11501 # 100)); ("CAD", JNum (1264 # 1000)) ]).
Proof.
  eapply getRates_returns_rates; [reflexivity|].
  split; [reflexivity|]. split; [|reflexivity].
  eexists. vm_compute. reflexivity.
Defined.

(** ** Surepass: outcomes of the operations *)

Lemma checkAPIResponse_returns {JS : JsString.Prototype}
    (resp : Surepass.RESTlerResponse)
    (schema : Guardian.Validator) (data : JSON) :
  Surepass.__checkAPIResponse resp (Some schema) = Return data <->
  accepts Surepass.SurepassResponseSchema (Surepass.body resp)
  /\ Js.prop (Surepass.body resp) "success" <> JBool false
  /\ schema (present (Js.prop (Surepass.body resp) "data")) = inr data.
Proof.
  destruct (Guardian.validate Surepass.SurepassResponseSchema
              (Surepass.body resp)) as [err|respObj] eqn:Hvalid.
  - split.
    + unfold Surepass.__checkAPIResponse. rewrite Hvalid.
      by destruct (Surepass.body resp).
    + intros [[r Hr] _]. unfold accepts in *. congruence.
  - rewrite (checkAPIResponse_validated resp _ respObj Hvalid).
    destruct (Surepass_envelope _ _ Hvalid) as (_ & -> & _ & ->).
    destruct (Js.prop (Surepass.body resp) "success") as [| |[|]| | | |];
      cbn [present];
      try (destruct (schema (present (Js.prop (Surepass.body resp) "data")))
             as [e|d];
           (split;
            [intros Heq; first [discriminate Heq | injection Heq as <-];
             (split; [by exists respObj|by split])
            |intros (_ & _ & Heq); first [discriminate Heq | by injection Heq as <-]])).
    split; [discriminate|]. by intros (_ & Hflag & _).
Qed.

(** X16: a Surepass operation resolves exactly when the transport answered,
    the body is a valid envelope whose [success] is not [false], and the
    schema of the operation accepts the envelope's [data]; what it resolves
    with is what the schema made of the data.  Neither the HTTP status nor
    the [status_code] of the envelope plays a role, and a failed transport
    never resolves. *)
Theorem operation_returns_iff {JS : JsString.Prototype}
    (_makeRequest : Surepass.Transport)
    (endpoint : string) (payload : list (string * JSON))
    (schema : Guardian.Validator) (data : JSON) :
  Surepass.operation _makeRequest endpoint payload schema = Return data <->
  exists resp,
    _makeRequest (Surepass.mkRequest endpoint "POST" "JSON" payload) =
      Return resp
    /\ accepts Surepass.SurepassResponseSchema (Surepass.body resp)
    /\ Js.prop (Surepass.body resp) "success" <> JBool false
    /\ schema (present (Js.prop (Surepass.body resp) "data")) = inr data.
Proof.
  unfold Surepass.operation, Runtime.try_catch, Runtime.bind.
  destruct (_makeRequest _) as [resp|failure].
  - destruct (Surepass.__checkAPIResponse resp (Some schema)) as [d|failure]
      eqn:Hcheck.
    + apply checkAPIResponse_returns in Hcheck. split.
      * intros [= <-]. eauto.
      * intros (resp' & [= <-] & _ & _ & Hdata).
        destruct Hcheck as (_ & _ & Hd). congruence.
    + rewrite on_failure_surfaced. split; [discriminate|].
      intros (resp' & [= <-] & Hreturns).
      apply checkAPIResponse_returns in Hreturns. congruence.
  - rewrite on_failure_surfaced. split; [discriminate|].
    intros (resp' & Hresp & _). discriminate.
Qed.

(** The specification's first scenario, with a [status_code] of 500 in the
    envelope. *)
Lemma operation_returns_iff_witness :
  let data :=
    JObj [ ("client_id", JStr "c1"); ("name_1", JStr "John Doe");
           ("name_2", JStr "john doe"); ("match_score", JNum (95 # 100));
           ("match_status", JBool true) ] in
  Surepass.compareNames
    (fun _ => Return (Surepass.mkResponse 200
                        (JObj [ ("status_code", JNum 500);
                                ("success", JBool true); ("data", data) ])))
    "John Doe" "john doe" false = Return data.
Proof.
  intros data. apply operation_returns_iff.
  eexists. split; [reflexivity|].
  split; [eexists; vm_compute; reflexivity|].
  split; [discriminate|vm_compute; reflexivity].
Defined.






(** ** The error classes and the Surepass constructor *)

Lemma own_In (table : list (string * string)) (code text : string) :
  Runtime.own table code = Some text -> In (code, text) table.
Proof.
  induction table as [|[k v] table IH]; simpl; [done|].
  destruct (String.eqb k code) eqn:Hk.
  - apply String.eqb_eq in Hk. intros [= <-]. left. by rewrite Hk.
  - intros Hown. right. by apply IH.
Qed.

(** X19: no two codes of a table share a message, so the message an error
    class hands to its base class identifies the code that was selected. *)
Theorem message_identifies_code (code1 code2 text : string) :
  (Runtime.own Surepass.SurepassErrorCodes code1 = Some text ->
   Runtime.own Surepass.SurepassErrorCodes code2 = Some text ->
   code1 = code2)
  /\ (Runtime.own OpenExchange.OpenExchangeErrorCodes code1 = Some text ->
      Runtime.own OpenExchange.OpenExchangeErrorCodes code2 = Some text ->
      code1 = code2).
Proof.
  split; intros H1%own_In H2%own_In; simpl in H1, H2;
    repeat (destruct H1 as [H1|H1]; [injection H1 as <- <-|]);
    try (destruct H1);
    repeat (destruct H2 as [H2|H2];
            [first [discriminate H2 | by injection H2 as <-]|]);
    destruct H2.
Qed.

Lemma message_identifies_code_witness :
  Runtime.own Surepass.SurepassErrorCodes "UNHANDLED_ERROR" =
    Some "An unhandled error occurred."
  /\ "UNHANDLED_ERROR" = "UNHANDLED_ERROR".
Proof.
  split; [reflexivity|].
  destruct (message_identifies_code "UNHANDLED_ERROR" "UNHANDLED_ERROR"
              "An unhandled error occurred.") as [Hsurepass _].
  apply Hsurepass; reflexivity.
Defined.

(** X20: neither constructor loses what it is given.  The cause is kept,
    every metadata entry other than [originalCode] is kept, the selected
    code is the requested code or [UNKNOWN_ERROR], and whenever the code
    was replaced the requested one is in the context under
    [originalCode]. *)
Theorem error_constructor_keeps (code : string)
    (meta : option (gmap string JSON)) (cause : option Exception) :
  (exists selected message context,
     Surepass.SurepassError code meta cause =
       DomainError Surepass_vendor selected message context cause
     /\ (forall k, k <> "originalCode" -> context !! k = default ∅ meta !! k)
     /\ (selected = code \/ selected = "UNKNOWN_ERROR")
     /\ (selected <> code -> context !! "originalCode" = Some (JStr code)))
  /\ (exists selected message context,
        OpenExchange.OpenExchangeError code meta cause =
          DomainError OpenExchange_vendor selected message context cause
        /\ (forall k, k <> "originalCode" -> context !! k = default ∅ meta !! k)
        /\ (selected = code \/ selected = "UNKNOWN_ERROR")
        /\ (selected <> code -> context !! "originalCode" = Some (JStr code))).
Proof.
  split.
  - unfold Surepass.SurepassError.
    destruct (negb (Runtime.truthy (Runtime.get Surepass.SurepassErrorCodes code)));
      eexists _, _, _; (split; [reflexivity|]); simpl.
    + split; [intros k Hk; by rewrite lookup_insert_ne|].
      split; [by right|]. intros _. by rewrite lookup_insert_eq.
    + split; [done|]. split; [by left|done].
  - unfold OpenExchange.OpenExchangeError.
    destruct (negb (Runtime.truthy
                      (Runtime.get OpenExchange.OpenExchangeErrorCodes code)));
      eexists _, _, _; (split; [reflexivity|]); simpl.
    + split; [intros k Hk; by rewrite lookup_insert_ne|].
      split; [by right|]. intros _. by rewrite lookup_insert_eq.
    + split; [done|]. split; [by left|done].
Qed.

Lemma error_constructor_keeps_witness :
  exists context,
    Surepass.SurepassError "INVALID_CODE"
      (Some {[ "endpoint" := JStr "bank-verification" ]}) None =
      DomainError Surepass_vendor "UNKNOWN_ERROR"
        (POwn "An unknown error occurred in Surepass.") context None
    /\ context !! "endpoint" = Some (JStr "bank-verification")
    /\ context !! "originalCode" = Some (JStr "INVALID_CODE").
Proof.
  destruct (error_constructor_keeps "INVALID_CODE"
              (Some {[ "endpoint" := JStr "bank-verification" ]}) None)
    as [(selected & message & context & Hnew & Hkept & _ & Horiginal) _].
  assert (Surepass.SurepassError "INVALID_CODE"
            (Some {[ "endpoint" := JStr "bank-verification" ]}) None =
          DomainError Surepass_vendor "UNKNOWN_ERROR"
            (POwn "An unknown error occurred in Surepass.")
            (<["originalCode" := JStr "INVALID_CODE"]>
               {[ "endpoint" := JStr "bank-verification" ]}) None) as Heval
    by reflexivity.
  rewrite Heval in Hnew. injection Hnew as <- <- <-.
  eexists. split; [exact Heval|]. split.
  - rewrite Hkept by discriminate. by simplify_map_eq.
  - apply Horiginal. discriminate.
Defined.

(** X21: the Surepass constructor keeps the caller's [mode] and [auth],
    fixes the headers, and is stable: the options it hands on are left
    unchanged when they go through the constructor again. *)
Theorem Surepass_constructor_stable
    (options options' : Surepass.SurepassOptions) :
  Surepass.constructor options = Return options' ->
  Surepass.constructor options' = Return options'
  /\ Surepass.mode options' = Surepass.mode options
  /\ Surepass.auth options' = Surepass.auth options
  /\ Surepass.headers options' =
       Some {[ "Content-Type" := "application/json";
               "Accept" := "application/json" ]}.
Proof.
  unfold Surepass.constructor. intros [= <-]. simpl. repeat split.
Qed.

Lemma Surepass_constructor_stable_witness :
  exists options',
    Surepass.constructor
      (Surepass.mkOptions "SANDBOX" (Some "token") None None None None None) =
      Return options'
    /\ Surepass.constructor options' = Return options'
    /\ Surepass.auth options' = Some "token".
Proof.
  eexists. split; [reflexivity|].
  destruct (Surepass_constructor_stable
              (Surepass.mkOptions "SANDBOX" (Some "token") None None None None
                 None) _ eq_refl) as (Hstable & _ & Hauth & _).
  split; [exact Hstable|exact Hauth].
Defined.
